(** * angular-eslint schematics: the helpers of [packages/schematics/src/utils.ts]

    A shallow embedding of the utility functions of the schematics package
    and the properties its specification states about them.

    Conventions of the embedding.
    - A JavaScript string is a [string]: a sequence of code units, compared
      code unit by code unit.
    - A function that can throw returns a [result]; [Throw] carries the
      exception.
    - JavaScript data (what [JSON.parse] yields and what the builders
      construct) is a [Value]; an object keeps its properties in the order
      in which [Object.keys] enumerates them.
    - The virtual file tree, [JSON.parse], [JSON.stringify] and
      [strip-json-comments] belong to other packages: they are interfaces
      ([Schematics], [Runtime]) that the helpers take as parameters.
    - [normalize] and [join] of [@angular-devkit/core] are pure string
      functions on which the results of [offsetFromRoot] depend; they are
      embedded from the code of that package. *)

From Stdlib Require Import Bool Arith Lia List String Ascii.
From Stdlib Require Import NArith DecimalString.
From Stdlib Require Import Sorted Permutation FinFun.
Import ListNotations.

Local Open Scope list_scope.
Local Open Scope string_scope.

Set Implicit Arguments.
Set Warnings "-register-all".

(* ================================================================== *)
(** * Exceptions and results *)

Module Js.

(** The exceptions the embedded code can raise.  [Error] carries its
    message; [TypeError] names the member whose access failed;
    [InvalidPathException] is the path exception of [@angular-devkit/core];
    [TreeException] stands for whatever a file tree raises from [create] or
    [overwrite]; [RangeError] is the exhaustion of the call stack. *)
Inductive exn : Type :=
| Error (message : string)
| TypeError (member : string)
| InvalidPathException (path : string)
| TreeException (message : string)
| RangeError.

Inductive result (A : Type) : Type :=
| Ok (a : A)
| Throw (e : exn).

Arguments Ok {A} a.
Arguments Throw {A} e.

Definition bind {A B : Type} (m : result A) (k : A -> result B) : result B :=
  match m with
  | Ok a => k a
  | Throw e => Throw e
  end.

End Js.
Export Js.

Declare Scope js_scope.
Delimit Scope js_scope with js.
Notation "x <- m ;; k" := (bind m (fun x => k))
  (at level 61, m at next level, right associativity) : js_scope.
Local Open Scope js_scope.

(* ================================================================== *)
(** * Strings *)

Module Str.

(** [String.prototype.split] with a separator that matches exactly one code
    unit: the pieces between the separators, of which there is always at
    least one. *)
Fixpoint split_by (is_sep : ascii -> bool) (s : string) : list string :=
  match s with
  | EmptyString => [EmptyString]
  | String c s' =>
      if is_sep c then EmptyString :: split_by is_sep s'
      else match split_by is_sep s' with
           | [] => [String c EmptyString]
           | w :: ws => String c w :: ws
           end
  end.

(** [s.split('/')]. *)
Definition split_slash (s : string) : list string :=
  split_by (fun c => (c =? "/")%char) s.

(** [Array.prototype.join(sep)] on an array of strings. *)
Definition join_with (sep : string) (l : list string) : string :=
  String.concat sep l.

(** [s] written [n] times. *)
Fixpoint times (n : nat) (s : string) : string :=
  match n with
  | O => ""
  | S n' => s ++ times n' s
  end.

(** [true] when no code unit of [s] satisfies [p]. *)
Fixpoint none_of (p : ascii -> bool) (s : string) : bool :=
  match s with
  | EmptyString => true
  | String c s' => negb (p c) && none_of p s'
  end.

End Str.

(* ================================================================== *)
(** * Paths of [@angular-devkit/core] *)

Module Path.

(** The separators of the regular expression [/[\/\\]/]. *)
Definition is_sep (c : ascii) : bool :=
  ((c =? "/") || (c =? "\"))%char.

(** [/[A-Z]/i]. *)
Definition is_letter (c : ascii) : bool :=
  let n := nat_of_ascii c in
  (((65 <=? n) && (n <=? 90)) || ((97 <=? n) && (n <=? 122)))%nat.

(** [path.match(/^[A-Z]:[\/\\]/i)]: an absolute Windows path; the result is
    the drive letter and what follows the three matched code units. *)
Definition windows_drive (path : string) : option (ascii * string) :=
  match path with
  | String d (String c (String s rest)) =>
      if is_letter d && (c =? ":")%char && is_sep s then Some (d, rest)
      else None
  | _ => None
  end.

(** The [while (i < p.length)] loop of [normalize].  The array [p] is kept
    in two parts: [done] holds [p[0..i)] with [p[i-1]] first, [rest] holds
    [p[i..]]; every iteration takes [p[i]] out of [rest], by dropping it
    ([splice]) or by stepping over it ([i++]). *)
Fixpoint normalize_loop (original : string) (relative : bool)
    (done rest : list string) : result (list string) :=
  match rest with
  | [] => Ok (rev done)
  | cur :: rest' =>
      if cur =? "." then normalize_loop original relative done rest'
      else if cur =? ".." then
        if (List.length done <? 2)%nat && negb relative then
          Throw (InvalidPathException original)
        else if (2 <=? List.length done)%nat && negb (hd "" done =? "..") then
          normalize_loop original relative (tl done) rest'
        else normalize_loop original relative (cur :: done) rest'
      else if cur =? "" then normalize_loop original relative done rest'
      else normalize_loop original relative (cur :: done) rest'
  end.

(** [normalize(path)], without its cache. *)
Definition normalize (path : string) : result string :=
  if (path =? "") || (path =? ".") then Ok ""
  else if path =? "/" then Ok "/"
  else
    let original := path in
    let path :=
      match windows_drive path with
      | Some (d, rest) => "\" ++ String d "" ++ "\" ++ rest
      | None => path
      end in
    let p := Str.split_by is_sep path in
    let '(p, relative) :=
      if hd "" p =? "" then (p, false) else ("." :: p, true) in
    p <- normalize_loop original relative [hd "" p] (tl p) ;;
    match p with
    | [p0] => Ok (if p0 =? "" then "/" else "")
    | _ =>
        let p := if hd "" p =? "." then tl p else p in
        Ok (Str.join_with "/" p)
    end.

(** [join(p1, other)] with one further argument. *)
Definition join (p1 other : string) : result string :=
  normalize ((if p1 =? "" then "" else p1 ++ "/") ++ other).

End Path.

(* ================================================================== *)
(** * [offsetFromRoot] *)

Definition offsetFromRoot (fullPathToSourceDir : string) : result string :=
  n <- Path.normalize fullPathToSourceDir ;;
  let parts := Str.split_slash n in
  Ok (fold_left (fun offset _ => offset ++ "../") (seq 0 (List.length parts)) "").

(* ================================================================== *)
(** * JavaScript data *)

Module Data.

(** The values the code handles.  A number is carried by its canonical
    decimal rendering ([Number::toString]): the code does no arithmetic.
    An object is the list of its own properties in the order of
    [OrdinaryOwnPropertyKeys]. *)
Inductive Value : Type :=
| JUndefined
| JNull
| JBool (b : bool)
| JNumber (repr : string)
| JString (s : string)
| JArray (items : list Value)
| JObject (props : list (string * Value)).

Definition Props : Type := list (string * Value).

(** ** Array indices *)

Definition digit (c : ascii) : option N :=
  let n := N_of_ascii c in
  if ((48 <=? n) && (n <=? 57))%N then Some (n - 48)%N else None.

Fixpoint digits_value (acc : N) (s : string) : option N :=
  match s with
  | EmptyString => Some acc
  | String c s' =>
      match digit c with
      | Some d => digits_value (acc * 10 + d)%N s'
      | None => None
      end
  end.

(** A property key is an array index when it is the canonical decimal
    rendering of an integer below [2^32 - 1]. *)
Definition array_index (k : string) : option N :=
  match k with
  | EmptyString => None
  | String c rest =>
      if ((c =? "0")%char && negb (rest =? "")) then None
      else if (10 <? String.length k)%nat then None
      else match digits_value 0 k with
           | Some n => if (n <? 4294967295)%N then Some n else None
           | None => None
           end
  end.

Definition is_array_index (k : string) : bool :=
  match array_index k with Some _ => true | None => false end.

Definition nat_to_string (n : nat) : string :=
  NilEmpty.string_of_uint (Nat.to_uint n).

(** ** Own properties of an object *)

Fixpoint obj_get (props : Props) (k : string) : option Value :=
  match props with
  | [] => None
  | (k', v) :: rest => if k' =? k then Some v else obj_get rest k
  end.

Definition has_key (props : Props) (k : string) : bool :=
  match obj_get props k with Some _ => true | None => false end.

Definition keys (props : Props) : list string := map fst props.

(** The value of an existing property changes in place. *)
Fixpoint obj_replace (props : Props) (k : string) (v : Value) : Props :=
  match props with
  | [] => []
  | (k', v') :: rest =>
      if k' =? k then (k, v) :: rest else (k', v') :: obj_replace rest k v
  end.

(** A new array index goes among the array indices, in ascending numeric
    order; these come before every other key. *)
Fixpoint obj_insert_index (props : Props) (n : N) (k : string) (v : Value)
  : Props :=
  match props with
  | [] => [(k, v)]
  | (k', v') :: rest =>
      match array_index k' with
      | Some m =>
          if (m <? n)%N then (k', v') :: obj_insert_index rest n k v
          else (k, v) :: props
      | None => (k, v) :: props
      end
  end.

(** [CreateDataProperty(obj, k, v)] on an ordinary object: what
    [obj[k] = v], a property of an object literal and a spread property
    do. *)
Definition obj_set (props : Props) (k : string) (v : Value) : Props :=
  if has_key props k then obj_replace props k v
  else match array_index k with
       | Some n => obj_insert_index props n k v
       | None => (props ++ [(k, v)])%list
       end.

(** The object literal [{ k1: v1, ..., kn: vn }]. *)
Definition literal (props : list (string * Value)) : Props :=
  fold_left (fun o kv => obj_set o (fst kv) (snd kv)) props [].

(** [{ ...source }]: the own properties of [source], copied in order. *)
Definition spread (source : Props) : Props := literal source.

(** ** Conversions *)

(** [ToBoolean]. *)
Definition truthy (v : Value) : bool :=
  match v with
  | JUndefined | JNull => false
  | JBool b => b
  | JNumber r => negb ((r =? "0") || (r =? "NaN"))
  | JString s => negb (s =? "")
  | JArray _ | JObject _ => true
  end.

(** [ToString], as a template literal applies it. *)
Fixpoint ToString (v : Value) : string :=
  match v with
  | JUndefined => "undefined"
  | JNull => "null"
  | JBool true => "true"
  | JBool false => "false"
  | JNumber r => r
  | JString s => s
  | JArray items =>
      Str.join_with ","
        (map (fun x => match x with
                       | JUndefined | JNull => ""
                       | _ => ToString x
                       end) items)
  | JObject _ => "[object Object]"
  end.

(** [v === s] for a string [s]. *)
Definition is_string (v : Value) (s : string) : bool :=
  match v with
  | JString s' => s' =? s
  | _ => false
  end.

(** ** Property access *)

(** [o[k]] and [o.k], reading own data properties: the properties of an
    object, the elements and the length of an array, the code units and the
    length of a string.  Reading from [undefined] or [null] is a
    [TypeError].  (Members inherited from a prototype are functions: they
    are not data and are not part of this model.) *)
Definition get_member (o : Value) (k : string) : result Value :=
  match o with
  | JUndefined | JNull => Throw (TypeError k)
  | JObject props =>
      Ok (match obj_get props k with Some v => v | None => JUndefined end)
  | JArray items =>
      if k =? "length" then Ok (JNumber (nat_to_string (List.length items)))
      else match array_index k with
           | Some n => Ok (nth (N.to_nat n) items JUndefined)
           | None => Ok JUndefined
           end
  | JString s =>
      if k =? "length" then Ok (JNumber (nat_to_string (String.length s)))
      else match array_index k with
           | Some n =>
               Ok (match String.get (N.to_nat n) s with
                   | Some c => JString (String c "")
                   | None => JUndefined
                   end)
           | None => Ok JUndefined
           end
  | JBool _ | JNumber _ => Ok JUndefined
  end.

(** [o[k] = v] in strict code, for a key [k] that is neither an array
    index nor [length].  On an array the property is added to the array
    object; it is not an element, so the array as data is the same.  On a
    primitive the assignment is a [TypeError]. *)
Definition set_member (o : Value) (k : string) (v : Value) : result Value :=
  match o with
  | JObject props => Ok (JObject (obj_set props k v))
  | JArray items => Ok (JArray items)
  | _ => Throw (TypeError k)
  end.

(** The place [o[k]] receives the value [v]: the step by which a change
    made through a reference to [o[k]] shows in [o]. *)
Definition put_member (o : Value) (k : string) (v : Value) : Value :=
  match o with
  | JObject props =>
      if has_key props k then JObject (obj_replace props k v) else o
  | JArray items =>
      match array_index k with
      | Some n =>
          if (N.to_nat n <? List.length items)%nat then
            JArray (firstn (N.to_nat n) items
                      ++ v :: skipn (S (N.to_nat n)) items)%list
          else o
      | None => o
      end
  | _ => o
  end.

(** [put_at o [k1; ...; kn] v]: the place [o[k1]...[kn]] receives [v]. *)
Fixpoint put_at (o : Value) (path : list string) (v : Value) : Value :=
  match path with
  | [] => v
  | k :: path' =>
      match get_member o k with
      | Ok child => put_member o k (put_at child path' v)
      | Throw _ => o
      end
  end.

(** [select o [k1; ...; kn]]: the value of [o[k1]...[kn]]. *)
Fixpoint select (o : Value) (path : list string) : result Value :=
  match path with
  | [] => Ok o
  | k :: path' => child <- get_member o k ;; select child path'
  end.

(** ** [Array.prototype.sort()] on strings *)

Fixpoint sort_insert (x : string) (l : list string) : list string :=
  match l with
  | [] => [x]
  | y :: rest => if String.leb x y then x :: l else y :: sort_insert x rest
  end.

(** The default comparison orders strings by their code units. *)
Definition sort (l : list string) : list string :=
  fold_right sort_insert [] l.

End Data.
Export Data.

(* ================================================================== *)
(** * The interfaces the helpers are written against *)

Module Host.

(** What reaches a path parameter at run time: a string, or [undefined]
    when [getWorkspacePath] found no workspace file. *)
Definition PathArg : Type := option string.
Definition at_path (s : string) : PathArg := Some s.
Definition undefined_path : PathArg := None.

(** [`${path}`]. *)
Definition path_text (p : PathArg) : string :=
  match p with
  | Some s => s
  | None => "undefined"
  end.

(** [DirEntry], with the two members the code reads. *)
Record DirEntry : Type := mkDirEntry {
  subfiles : list string;
  subdirs : list string
}.

(** The [Tree] of [@angular-devkit/schematics], with the methods the code
    calls.  A tree is a value; [create] and [overwrite] give the tree after
    the call.  [read] gives the decoded text of the file, or nothing for
    [null]. *)
Class Schematics : Type := {
  Tree : Type;
  SchematicContext : Type;
  tree_exists : Tree -> PathArg -> bool;
  tree_read : Tree -> PathArg -> option string;
  tree_create : Tree -> PathArg -> string -> result Tree;
  tree_overwrite : Tree -> PathArg -> string -> result Tree;
  tree_getDir : Tree -> string -> DirEntry
}.

(** [JSON.parse] (a value, or the message of the exception),
    [JSON.stringify(value, null, space)] (a string, or nothing for
    [undefined]) and [stripJsonComments]. *)
Class Runtime : Type := {
  stripJsonComments : string -> string;
  JSON_parse : string -> Value + string;
  JSON_stringify : Value -> nat -> option string
}.

End Host.
Export Host.

Coercion at_path : string >-> PathArg.

(** [array.forEach], with the state the callback updates threaded through
    it. *)
Fixpoint forEach {A St : Type} (l : list A) (f : St -> A -> result St)
    (s : St) : result St :=
  match l with
  | [] => Ok s
  | x :: rest => s' <- f s x ;; forEach rest f s'
  end.

(* ================================================================== *)
(** * The helpers of [utils.ts] *)

Section Utils.

Context {RT : Runtime} {SC : Schematics}.

Definition Rule : Type := Tree -> SchematicContext -> result Tree.

Definition readJsonInTree (host : Tree) (path : PathArg) : result Value :=
  if negb (tree_exists host path) then
    Throw (Error ("Cannot find " ++ path_text path))
  else
    match tree_read host path with
    | None => Throw (TypeError "toString")
    | Some text =>
        let contents := stripJsonComments text in
        match JSON_parse contents with
        | inl json => Ok json
        | inr message =>
            Throw (Error ("Cannot parse " ++ path_text path ++ ": " ++ message))
        end
    end.

Definition serializeJson (json : Value) : string :=
  match JSON_stringify json 2 with
  | Some text => text
  | None => "undefined"
  end ++ String "010" "".

Definition updateJsonInTree (path : string)
    (callback : Value -> SchematicContext -> result Value) : Rule :=
  fun host context =>
    if negb (tree_exists host path) then
      json <- callback (JObject []) context ;;
      tree_create host path (serializeJson json)
    else
      current <- readJsonInTree host path ;;
      json <- callback current context ;;
      tree_overwrite host path (serializeJson json).

Definition possibleFiles : list string :=
  ["/workspace.json"; "/angular.json"; "/.angular.json"].

Definition getWorkspacePath (host : Tree) : PathArg :=
  hd_error (filter (fun path : string => tree_exists host path) possibleFiles).

Definition getProjectConfig (host : Tree) (name : string) : result Value :=
  workspaceJson <- readJsonInTree host (getWorkspacePath host) ;;
  projects <- get_member workspaceJson "projects" ;;
  projectConfig <- get_member projects name ;;
  if negb (truthy projectConfig) then
    Throw (Error ("Cannot find project '" ++ name ++ "'"))
  else Ok projectConfig.

Definition updateWorkspaceInTree
    (callback : Value -> SchematicContext -> Tree -> result Value) : Rule :=
  fun host context =>
    let path := getWorkspacePath host in
    current <- readJsonInTree host path ;;
    json <- callback current context host ;;
    tree_overwrite host path (serializeJson json).

(** ['eslint' | 'lint']. *)
Inductive TargetName : Type := eslint | lint.

Definition TargetName_text (t : TargetName) : string :=
  match t with
  | eslint => "eslint"
  | lint => "lint"
  end.

(** The [eslintTargetConfig] literal. *)
Definition eslintTargetConfig (lintFilePatternsRoot : Value) : Value :=
  JObject (literal [
    ("builder", JString "@angular-eslint/builder:lint");
    ("options", JObject (literal [
       ("lintFilePatterns", JArray [
          JString (ToString lintFilePatternsRoot ++ "/**/*.ts");
          JString (ToString lintFilePatternsRoot ++ "/**/*.html")])]))]).

(** The callback of [addESLintTargetToProject].  [existingProjectConfig] is
    a reference to the object at [workspaceJson.projects[projectName]], so
    the assignment to its [architect] changes [workspaceJson] at
    [projects[projectName].architect]; the document comes from [JSON.parse]
    and shares no object between two places. *)
Definition addESLintTarget (projectName : string) (targetName : TargetName)
    (workspaceJson : Value) : result Value :=
  projects <- get_member workspaceJson "projects" ;;
  existingProjectConfig <- get_member projects projectName ;;
  root <- get_member existingProjectConfig "root" ;;
  let lintFilePatternsRoot :=
    if is_string root "" then JString "src" else root in
  architect <- get_member existingProjectConfig "architect" ;;
  architect' <- set_member architect (TargetName_text targetName)
                  (eslintTargetConfig lintFilePatternsRoot) ;;
  Ok (put_at workspaceJson ["projects"; projectName; "architect"] architect').

Definition addESLintTargetToProject (projectName : string)
    (targetName : TargetName) : Rule :=
  updateWorkspaceInTree
    (fun workspaceJson _ _ => addESLintTarget projectName targetName workspaceJson).

(** [stack] is the number of nested calls the engine has room for. *)
Fixpoint allFilesInDirInHost (stack : nat) (host : Tree) (path : string)
    (recursive : bool) : result (list string) :=
  match stack with
  | O => Throw RangeError
  | S stack' =>
      let dir := tree_getDir host path in
      res <- forEach (subfiles dir)
               (fun res p => q <- Path.join path p ;; Ok (res ++ [q])%list) [] ;;
      if negb recursive then Ok res
      else
        forEach (subdirs dir)
          (fun res p =>
             q <- Path.join path p ;;
             sub <- allFilesInDirInHost stack' host q true ;;
             Ok (res ++ sub)%list) res
  end.

End Utils.

(** ['application' | 'library']. *)
Inductive ProjectType : Type := application | library.

Definition ProjectType_text (t : ProjectType) : string :=
  match t with
  | application => "application"
  | library => "library"
  end.

Definition setESLintProjectBasedOnProjectType (projectRoot : string)
    (projectType : ProjectType) : Value :=
  let project := JUndefined in
  let project :=
    if ProjectType_text projectType =? "application" then
      JArray [JString (projectRoot ++ "/tsconfig.app.json");
              JString (projectRoot ++ "/tsconfig.spec.json");
              JString (projectRoot ++ "/e2e/tsconfig.json")]
    else project in
  let project :=
    if ProjectType_text projectType =? "library" then
      JArray [JString (projectRoot ++ "/tsconfig.lib.json");
              JString (projectRoot ++ "/tsconfig.spec.json")]
    else project in
  project.

(** The two selector rules, which both builders write. *)
Definition selectorRules (prefix : string) : Props :=
  literal [
    ("@angular-eslint/directive-selector", JArray [
       JString "error";
       JObject (literal [("type", JString "attribute");
                         ("prefix", JString prefix);
                         ("style", JString "camelCase")])]);
    ("@angular-eslint/component-selector", JArray [
       JString "error";
       JObject (literal [("type", JString "element");
                         ("prefix", JString prefix);
                         ("style", JString "kebab-case")])])].

(** [prefix] is [string | null]; [if (prefix)] holds for a string that is
    not empty. *)
Definition createRootESLintConfig (prefix : option string) : Value :=
  let codeRules :=
    match prefix with
    | Some p => if truthy (JString p) then selectorRules p else literal []
    | None => literal []
    end in
  JObject (literal [
    ("root", JBool true);
    ("ignorePatterns", JArray [JString "projects/**/*"]);
    ("overrides", JArray [
       JObject (literal [
         ("files", JArray [JString "*.ts"]);
         ("parserOptions", JObject (literal [
            ("project", JArray [JString "tsconfig.json";
                                JString "e2e/tsconfig.json"]);
            ("createDefaultProgram", JBool true)]));
         ("extends", JArray [
            JString "plugin:@angular-eslint/recommended";
            JString "plugin:@angular-eslint/template/process-inline-templates"]);
         ("rules", JObject codeRules)]);
       JObject (literal [
         ("files", JArray [JString "*.html"]);
         ("extends", JArray [JString "plugin:@angular-eslint/template/recommended"]);
         ("rules", JObject (literal []))])])]).

Definition createProjectESLintConfig (rootPath projectRoot : string)
    (projectType : ProjectType) (prefix : string) : result Value :=
  offset <- offsetFromRoot rootPath ;;
  Ok (JObject (literal [
    ("extends", JString (offset ++ ".eslintrc.json"));
    ("ignorePatterns", JArray [JString "!**/*"]);
    ("overrides", JArray [
       JObject (literal [
         ("files", JArray [JString "*.ts"]);
         ("parserOptions", JObject (literal [
            ("project",
             setESLintProjectBasedOnProjectType projectRoot projectType);
            ("createDefaultProgram", JBool true)]));
         ("rules", JObject (selectorRules prefix))]);
       JObject (literal [
         ("files", JArray [JString "*.html"]);
         ("rules", JObject (literal []))])])])).

(** [obj] is the object given as its own properties; [obj[key]] is read for
    keys that [Object.keys] has just listed. *)
Definition sortObjectByKeys (obj : Props) : Props :=
  fold_left
    (fun result key =>
       obj_set (spread result) key
         (match obj_get obj key with Some v => v | None => JUndefined end))
    (sort (keys obj)) [].

(* ================================================================== *)
(** * A reference runtime and an in-memory tree

    Instances of the two interfaces, on which the statements below are
    evaluated: [JSON.stringify] and a parser for the JSON texts it writes, a
    comment stripper, and a tree that keeps its files under their
    normalized absolute paths. *)

Module Reference.

Definition LF : string := String "010" "".
Definition DQUOTE : string := String "034" "".
Definition BACKSLASH : string := String "092" "".

Definition hex_digit (n : nat) : ascii :=
  ascii_of_nat (if (n <? 10)%nat then 48 + n else 87 + n).

(** [QuoteJSONString], between the quotes. *)
Fixpoint quote_body (s : string) : string :=
  match s with
  | EmptyString => EmptyString
  | String c rest =>
      let n := nat_of_ascii c in
      (if (n =? 34)%nat then BACKSLASH ++ DQUOTE else
       if (n =? 92)%nat then BACKSLASH ++ BACKSLASH else
       if (n =? 8)%nat then BACKSLASH ++ "b" else
       if (n =? 12)%nat then BACKSLASH ++ "f" else
       if (n =? 10)%nat then BACKSLASH ++ "n" else
       if (n =? 13)%nat then BACKSLASH ++ "r" else
       if (n =? 9)%nat then BACKSLASH ++ "t" else
       if (n <? 32)%nat then
         BACKSLASH ++ "u00"
           ++ String (hex_digit (n / 16)) (String (hex_digit (n mod 16)) EmptyString)
       else String c EmptyString) ++ quote_body rest
  end.

Definition quote (s : string) : string := DQUOTE ++ quote_body s ++ DQUOTE.

Definition finite_number (repr : string) : bool :=
  negb ((repr =? "NaN") || (repr =? "Infinity") || (repr =? "-Infinity")).

(** [SerializeJSONProperty], with [gap] the indentation unit and [indent]
    the current indentation; nothing for a value that has no JSON text. *)
Fixpoint serialize (gap indent : string) (v : Value) : option string :=
  let inner := indent ++ gap in
  let open_ := if gap =? "" then "" else LF ++ inner in
  let close := if gap =? "" then "" else LF ++ indent in
  let sep := if gap =? "" then "," else "," ++ LF ++ inner in
  match v with
  | JUndefined => None
  | JNull => Some "null"
  | JBool true => Some "true"
  | JBool false => Some "false"
  | JNumber r => Some (if finite_number r then r else "null")
  | JString s => Some (quote s)
  | JArray items =>
      let partial :=
        map (fun x => match serialize gap inner x with
                      | Some t => t
                      | None => "null"
                      end) items in
      Some (match partial with
            | [] => "[]"
            | _ => "[" ++ open_ ++ Str.join_with sep partial ++ close ++ "]"
            end)
  | JObject props =>
      let partial :=
        (fix members (l : list (string * Value)) : list string :=
           match l with
           | [] => []
           | (k, x) :: rest =>
               match serialize gap inner x with
               | Some t =>
                   (quote k ++ (if gap =? "" then ":" else ": ") ++ t)
                     :: members rest
               | None => members rest
               end
           end) props in
      Some (match partial with
            | [] => "{}"
            | _ => "{" ++ open_ ++ Str.join_with sep partial ++ close ++ "}"
            end)
  end.

(** [JSON.stringify(value, null, space)] for a number [space]. *)
Definition stringify (v : Value) (space : nat) : option string :=
  serialize (Str.times (Nat.min 10 space) " ") "" v.

(** ** A parser for JSON texts *)

Definition is_ws (c : ascii) : bool :=
  let n := nat_of_ascii c in
  ((n =? 32) || (n =? 10) || (n =? 13) || (n =? 9))%nat.

Fixpoint skip_ws (s : string) : string :=
  match s with
  | String c rest => if is_ws c then skip_ws rest else s
  | EmptyString => s
  end.

(** The body of a string literal, after its opening quote. *)
Fixpoint parse_string (s : string) : option (string * string) :=
  match s with
  | EmptyString => None
  | String c rest =>
      let n := nat_of_ascii c in
      if (n =? 34)%nat then Some (EmptyString, rest)
      else if (n =? 92)%nat then
        match rest with
        | String e rest' =>
            let m := nat_of_ascii e in
            let unescaped :=
              if (m =? 34)%nat then Some "034"%char else
              if (m =? 92)%nat then Some "092"%char else
              if (m =? 47)%nat then Some "/"%char else
              if (m =? 98)%nat then Some "008"%char else
              if (m =? 102)%nat then Some "012"%char else
              if (m =? 110)%nat then Some "010"%char else
              if (m =? 114)%nat then Some "013"%char else
              if (m =? 116)%nat then Some "009"%char else None in
            match unescaped, parse_string rest' with
            | Some u, Some (body, after) => Some (String u body, after)
            | _, _ => None
            end
        | EmptyString => None
        end
      else if (n <? 32)%nat then None
      else match parse_string rest with
           | Some (body, after) => Some (String c body, after)
           | None => None
           end
  end.

Definition is_number_char (c : ascii) : bool :=
  let n := nat_of_ascii c in
  (((48 <=? n) && (n <=? 57)) || (n =? 45) || (n =? 43) || (n =? 46)
   || (n =? 101) || (n =? 69))%nat.

Fixpoint take_number (s : string) : string * string :=
  match s with
  | String c rest =>
      if is_number_char c then
        let '(digits, after) := take_number rest in (String c digits, after)
      else (EmptyString, s)
  | EmptyString => (EmptyString, s)
  end.

Definition drop_prefix (word s : string) : option string :=
  if String.prefix word s then
    Some (String.substring (String.length word)
            (String.length s - String.length word) s)
  else None.

(** A value at the head of [s], and what follows it; [fuel] bounds the
    nesting and the number of members. *)
Fixpoint parse_value (fuel : nat) (s : string) : option (Value * string) :=
  match fuel with
  | O => None
  | S fuel' =>
      match skip_ws s with
      | EmptyString => None
      | String c rest as s0 =>
          let n := nat_of_ascii c in
          if (n =? 34)%nat then
            match parse_string rest with
            | Some (body, after) => Some (JString body, after)
            | None => None
            end
          else if (n =? 91)%nat then
            (fix elements (k : nat) (s : string) (acc : list Value)
               : option (Value * string) :=
               match k with
               | O => None
               | S k' =>
                   match skip_ws s with
                   | String "]" after =>
                       match acc with
                       | [] => Some (JArray [], after)
                       | _ => None
                       end
                   | s1 =>
                       match parse_value fuel' s1 with
                       | Some (v, after) =>
                           match skip_ws after with
                           | String "," after' =>
                               match skip_ws after' with
                               | String "]" _ => None
                               | s2 => elements k' s2 (acc ++ [v])%list
                               end
                           | String "]" after' =>
                               Some (JArray (acc ++ [v])%list, after')
                           | _ => None
                           end
                       | None => None
                       end
                   end
               end) fuel' rest []
          else if (n =? 123)%nat then
            (fix members (k : nat) (s : string) (acc : Props)
               : option (Value * string) :=
               match k with
               | O => None
               | S k' =>
                   match skip_ws s with
                   | String "}" after =>
                       match acc with
                       | [] => Some (JObject [], after)
                       | _ => None
                       end
                   | String q s1 =>
                       if (nat_of_ascii q =? 34)%nat then
                         match parse_string s1 with
                         | Some (key, after) =>
                             match skip_ws after with
                             | String ":" after' =>
                                 match parse_value fuel' after' with
                                 | Some (v, after2) =>
                                     match skip_ws after2 with
                                     | String "," after3 =>
                                         match skip_ws after3 with
                                         | String "}" _ => None
                                         | s2 => members k' s2 (obj_set acc key v)
                                         end
                                     | String "}" after3 =>
                                         Some (JObject (obj_set acc key v), after3)
                                     | _ => None
                                     end
                                 | None => None
                                 end
                             | _ => None
                             end
                         | None => None
                         end
                       else None
                   | EmptyString => None
                   end
               end) fuel' rest []
          else if is_number_char c then
            let '(digits, after) := take_number s0 in
            Some (JNumber digits, after)
          else
            match drop_prefix "true" s0, drop_prefix "false" s0,
                  drop_prefix "null" s0 with
            | Some after, _, _ => Some (JBool true, after)
            | _, Some after, _ => Some (JBool false, after)
            | _, _, Some after => Some (JNull, after)
            | _, _, _ => None
            end
      end
  end.

Definition parse (text : string) : Value + string :=
  match parse_value (S (String.length text)) text with
  | Some (v, after) =>
      if skip_ws after =? "" then inl v
      else inr "Unexpected token in JSON"
  | None => inr "Unexpected token in JSON"
  end.

(** ** Comments *)

Inductive strip_state : Type := in_code | in_string | in_line | in_block.

(** Comments outside string literals become spaces. *)
Fixpoint strip (st : strip_state) (s : string) : string :=
  match s with
  | EmptyString => EmptyString
  | String c rest =>
      let n := nat_of_ascii c in
      match st with
      | in_code =>
          if (n =? 34)%nat then String c (strip in_string rest)
          else match c, rest with
               | "/"%char, String "/" rest' => "  " ++ strip in_line rest'
               | "/"%char, String "*" rest' => "  " ++ strip in_block rest'
               | _, _ => String c (strip in_code rest)
               end
      | in_string =>
          if (n =? 34)%nat then String c (strip in_code rest)
          else if (n =? 92)%nat then
            match rest with
            | String e rest' => String c (String e (strip in_string rest'))
            | EmptyString => String c EmptyString
            end
          else String c (strip in_string rest)
      | in_line =>
          if (n =? 10)%nat then String c (strip in_code rest)
          else String " " (strip in_line rest)
      | in_block =>
          match c, rest with
          | "*"%char, String "/" rest' => "  " ++ strip in_code rest'
          | _, _ =>
              String (if is_ws c then c else " "%char) (strip in_block rest)
          end
      end
  end.

Definition runtime : Runtime := {|
  stripJsonComments := strip in_code;
  JSON_parse := parse;
  JSON_stringify := stringify
|}.

(** ** An in-memory tree *)

Definition Files : Type := list (string * string).

(** The key under which the tree keeps [path]: [normalize('/' + path)]. *)
Definition file_key (path : PathArg) : option string :=
  match Path.normalize ("/" ++ path_text path) with
  | Ok key => Some key
  | Throw _ => None
  end.

Fixpoint lookup (files : Files) (key : string) : option string :=
  match files with
  | [] => None
  | (k, text) :: rest => if k =? key then Some text else lookup rest key
  end.

Fixpoint store (files : Files) (key text : string) : Files :=
  match files with
  | [] => [(key, text)]
  | (k, t) :: rest =>
      if k =? key then (key, text) :: rest else (k, t) :: store rest key text
  end.

Definition files_read (files : Files) (path : PathArg) : option string :=
  match file_key path with
  | Some key => lookup files key
  | None => None
  end.

Definition files_exists (files : Files) (path : PathArg) : bool :=
  match files_read files path with Some _ => true | None => false end.

Definition files_create (files : Files) (path : PathArg) (text : string)
  : result Files :=
  match file_key path with
  | Some key =>
      match lookup files key with
      | Some _ => Throw (TreeException ("Path " ++ key ++ " already exist."))
      | None => Ok (store files key text)
      end
  | None => Throw (InvalidPathException (path_text path))
  end.

Definition files_overwrite (files : Files) (path : PathArg) (text : string)
  : result Files :=
  match file_key path with
  | Some key =>
      match lookup files key with
      | Some _ => Ok (store files key text)
      | None => Throw (TreeException ("Path " ++ key ++ " does not exist."))
      end
  | None => Throw (InvalidPathException (path_text path))
  end.

Definition segments (key : string) : list string :=
  filter (fun s => negb (s =? "")) (Str.split_slash key).

Fixpoint strip_segments (dir key : list string) : option (list string) :=
  match dir, key with
  | [], _ => Some key
  | d :: dir', k :: key' => if d =? k then strip_segments dir' key' else None
  | _ :: _, [] => None
  end.

Fixpoint add_name (name : string) (l : list string) : list string :=
  match l with
  | [] => [name]
  | x :: rest => if x =? name then l else x :: add_name name rest
  end.

Definition files_getDir (files : Files) (path : string) : DirEntry :=
  match file_key path with
  | Some dir =>
      fold_left
        (fun entry kt =>
           match strip_segments (segments dir) (segments (fst kt)) with
           | Some [name] =>
               mkDirEntry (add_name name (subfiles entry)) (subdirs entry)
           | Some (name :: _ :: _) =>
               mkDirEntry (subfiles entry) (add_name name (subdirs entry))
           | _ => entry
           end)
        files (mkDirEntry [] [])
  | None => mkDirEntry [] []
  end.

Definition tree : Schematics := {|
  Tree := Files;
  SchematicContext := unit;
  tree_exists := files_exists;
  tree_read := files_read;
  tree_create := files_create;
  tree_overwrite := files_overwrite;
  tree_getDir := files_getDir
|}.

End Reference.

(* ================================================================== *)
(** * The vocabulary of the specification *)

(** The two kinds of error of the specification are [Error]s told apart by
    their message. *)
Definition is_not_found (e : exn) : Prop :=
  exists what : string, e = Error ("Cannot find " ++ what).

Definition is_parse_error (e : exn) : Prop :=
  exists path message : string,
    e = Error ("Cannot parse " ++ path ++ ": " ++ message).

(** Sample documents, written as values and turned into text by the
    reference [JSON.stringify]. *)
Module Sample.

Definition text_of (v : Value) : string :=
  match Reference.stringify v 2 with
  | Some text => text
  | None => ""
  end.

Definition architect : Props :=
  [("build", JObject []); ("lint", JObject [("builder", JString "tslint")])].

Definition project (root : string) : Props :=
  [("root", JString root);
   ("projectType", JString "application");
   ("prefix", JString "app");
   ("architect", JObject architect)].

Definition projects : Props :=
  [("shop", JObject (project "")); ("ui", JObject (project "libs/ui"))].

Definition workspace : Value :=
  JObject [("version", JNumber "1");
           ("projects", JObject projects);
           ("defaultProject", JString "shop")].

(** A callback: it sets the [version] of the document. *)
Definition set_version (json : Value) (_ : unit) : result Value :=
  set_member json "version" (JNumber "2").

Definition commented : string :=
  "// the workspace of the shop" ++ Reference.LF ++ text_of workspace.

Definition angular_tree : Reference.Files :=
  [("/angular.json", commented); ("/.angular.json", "{}")].

Definition broken_tree : Reference.Files :=
  [("/angular.json", "{ projects: ")].

Definition source_tree : Reference.Files :=
  [("/src/main.ts", "a"); ("/src/app/app.component.ts", "b");
   ("/src/app/shared/util.ts", "c"); ("/src/app/app.component.html", "d");
   ("/angular.json", "{}")].

End Sample.

(** [starts_with a b]: the key path [a] is a prefix of the key path [b]. *)
Fixpoint starts_with (a b : list string) : bool :=
  match a, b with
  | [], _ => true
  | x :: a', y :: b' => (x =? y) && starts_with a' b'
  | _ :: _, [] => false
  end.

(** The keys of the object at a place of a document. *)
Definition keys_at (v : Value) (path : list string) : result (list string) :=
  o <- select v path ;;
  match o with
  | JObject props => Ok (keys props)
  | _ => Throw (TypeError "keys")
  end.

(** The place of a target in a workspace document. *)
Definition target_place (projectName : string) (targetName : TargetName)
  : list string :=
  ["projects"; projectName; "architect"; TargetName_text targetName].

(** The target configuration the specification describes, for the root [r]
    of the lint file patterns. *)
Definition lint_target (r : string) : Value :=
  JObject [("builder", JString "@angular-eslint/builder:lint");
           ("options",
            JObject [("lintFilePatterns",
                      JArray [JString (r ++ "/**/*.ts");
                              JString (r ++ "/**/*.html")])])].

(** The root of the lint file patterns that [addESLintTarget] computes for a
    project configuration. *)
Definition lint_root (project : Props) : Value :=
  let root :=
    match obj_get project "root" with Some v => v | None => JUndefined end in
  if is_string root "" then JString "src" else root.

(** The selector rule the specification describes: [error], with the type,
    the prefix and the style of the selector. *)
Definition selector_rule (type prefix style : string) : Value :=
  JArray [JString "error";
          JObject [("type", JString type);
                   ("prefix", JString prefix);
                   ("style", JString style)]].

(** The place of the rules of the [*.ts] override in an ESLint
    configuration. *)
Definition ts_rules : list string := ["overrides"; "0"; "rules"].

(** Lexicographic order of the code units. *)
Definition lex_le (a b : string) : Prop := String.leb a b = true.

(** The value that [obj[key]] reads. *)
Definition value_of (obj : Props) (key : string) : Value :=
  match obj_get obj key with Some v => v | None => JUndefined end.

(** ** Directory listings *)

(** The text that precedes a name in the full path of an entry of the
    directory [path]. *)
Definition dir_prefix (path : string) : string :=
  if path =? "" then "" else if path =? "/" then "/" else path ++ "/".

(** The full path of the entry [name] of the directory [path]. *)
Definition child (path name : string) : string := dir_prefix path ++ name.

(** A directory as a finite tree: the names of its files, and its
    subdirectories by name, in the order of the directory listing. *)
Inductive Listing : Type :=
| Dir (files : list string) (dirs : list (string * Listing)).

Definition files_of (l : Listing) : list string :=
  match l with Dir files _ => files end.

(** The number of levels of directories. *)
Fixpoint height (l : Listing) : nat :=
  match l with
  | Dir _ dirs => S (fold_right (fun ds h => Nat.max (height (snd ds)) h) 0 dirs)
  end.

(** [listing_of host path l]: [l] is what [getDir] shows of the tree at
    [path] and below, and joining a directory of it with the name of one of
    its entries gives the full path of the entry. *)
Fixpoint listing_of {SC : Schematics} (host : Tree) (path : string)
    (l : Listing) : Prop :=
  match l with
  | Dir files dirs =>
      subfiles (tree_getDir host path) = files
      /\ subdirs (tree_getDir host path) = map fst dirs
      /\ Forall (fun f => Path.join path f = Ok (child path f)) files
      /\ fold_right
           (fun ds rest =>
              Path.join path (fst ds) = Ok (child path (fst ds))
              /\ listing_of host (child path (fst ds)) (snd ds)
              /\ rest)
           True dirs
  end.

(** The full paths of the files of a listing: those of the directory, then
    those of each subdirectory. *)
Fixpoint all_files (path : string) (l : Listing) : list string :=
  match l with
  | Dir files dirs =>
      List.app (map (child path) files)
        (flat_map (fun ds => all_files (child path (fst ds)) (snd ds)) dirs)
  end.

(** [file_under path l x]: [x] is the full path of a file of the directory
    [path] or of a directory below it. *)
Inductive file_under : string -> Listing -> string -> Prop :=
| file_here (path : string) (files : list string)
    (dirs : list (string * Listing)) (f : string) :
    In f files -> file_under path (Dir files dirs) (child path f)
| file_below (path : string) (files : list string)
    (dirs : list (string * Listing)) (d : string) (sub : Listing)
    (x : string) :
    In (d, sub) dirs ->
    file_under (child path d) sub x ->
    file_under path (Dir files dirs) x.

(** A name of a directory entry: not empty, without a slash. *)
Definition plain_name (name : string) : bool :=
  negb (name =? "") && Str.none_of (fun c => (c =? "/")%char) name.

(** The names of a directory are those of distinct entries. *)
Fixpoint names_ok (l : Listing) : Prop :=
  match l with
  | Dir files dirs =>
      NoDup files
      /\ NoDup (map fst dirs)
      /\ Forall (fun f => plain_name f = true) files
      /\ fold_right
           (fun ds rest =>
              plain_name (fst ds) = true /\ names_ok (snd ds) /\ rest)
           True dirs
  end.

(** The paths of the files of a listing, from the directory itself. *)
Fixpoint rel_files (l : Listing) : list string :=
  match l with
  | Dir files dirs =>
      List.app files
        (flat_map
           (fun ds => map (fun r => fst ds ++ "/" ++ r) (rel_files (snd ds)))
           dirs)
  end.

(** Induction on a listing, with the property for the subdirectories. *)
Fixpoint Listing_induction (P : Listing -> Prop)
    (step : forall files dirs,
        Forall (fun ds => P (snd ds)) dirs -> P (Dir files dirs))
    (l : Listing) : P l :=
  match l with
  | Dir files dirs =>
      step files dirs
        ((fix each (ds : list (string * Listing))
            : Forall (fun ds => P (snd ds)) ds :=
            match ds with
            | [] => Forall_nil _
            | x :: rest =>
                Forall_cons x (Listing_induction P step (snd x)) (each rest)
            end) dirs)
  end.

(** The listing of [src] in [Sample.source_tree]. *)
Definition source_listing : Listing :=
  Dir ["main.ts"]
      [("app", Dir ["app.component.ts"; "app.component.html"]
                   [("shared", Dir ["util.ts"] [])])].

(* ================================================================== *)
(** * The remaining rules of [utils.ts]

    The rules below read a project configuration out of [angular.json] and
    hand its members, whatever their type, to [normalize] and to the
    configuration builders.  The builders are embedded here as they run on
    such values; on values of the declared types they are the builders
    above. *)

(** [normalize(path)] for a [path] of any type.  The guards of [normalize]
    compare with [==]: [false == ''] and [0 == ''] hold, an array or an
    object is compared through its [ToString].  A value that passes the
    guards and is no string has no [match] method. *)
Definition normalize_dyn (path : Value) : result string :=
  match path with
  | JString s => Path.normalize s
  | JBool false => Ok ""
  | JNumber r => if r =? "0" then Ok "" else Throw (TypeError "match")
  | JArray _ | JObject _ =>
      let s := ToString path in
      if (s =? "") || (s =? ".") then Ok ""
      else if s =? "/" then Ok "/"
      else Throw (TypeError "match")
  | JUndefined | JNull | JBool true => Throw (TypeError "match")
  end.

(** [setESLintProjectBasedOnProjectType] on values of any type. *)
Definition setESLintProjectBasedOnProjectType_dyn
    (projectRoot projectType : Value) : Value :=
  let project := JUndefined in
  let project :=
    if is_string projectType "application" then
      JArray [JString (ToString projectRoot ++ "/tsconfig.app.json");
              JString (ToString projectRoot ++ "/tsconfig.spec.json");
              JString (ToString projectRoot ++ "/e2e/tsconfig.json")]
    else project in
  let project :=
    if is_string projectType "library" then
      JArray [JString (ToString projectRoot ++ "/tsconfig.lib.json");
              JString (ToString projectRoot ++ "/tsconfig.spec.json")]
    else project in
  project.

(** The two selector rules, for a prefix of any type. *)
Definition selectorRules_dyn (prefix : Value) : Props :=
  literal [
    ("@angular-eslint/directive-selector", JArray [
       JString "error";
       JObject (literal [("type", JString "attribute");
                         ("prefix", prefix);
                         ("style", JString "camelCase")])]);
    ("@angular-eslint/component-selector", JArray [
       JString "error";
       JObject (literal [("type", JString "element");
                         ("prefix", prefix);
                         ("style", JString "kebab-case")])])].

(** [createRootESLintConfig] on a prefix of any type. *)
Definition createRootESLintConfig_dyn (prefix : Value) : Value :=
  let codeRules :=
    if truthy prefix then selectorRules_dyn prefix else literal [] in
  JObject (literal [
    ("root", JBool true);
    ("ignorePatterns", JArray [JString "projects/**/*"]);
    ("overrides", JArray [
       JObject (literal [
         ("files", JArray [JString "*.ts"]);
         ("parserOptions", JObject (literal [
            ("project", JArray [JString "tsconfig.json";
                                JString "e2e/tsconfig.json"]);
            ("createDefaultProgram", JBool true)]));
         ("extends", JArray [
            JString "plugin:@angular-eslint/recommended";
            JString "plugin:@angular-eslint/template/process-inline-templates"]);
         ("rules", JObject codeRules)]);
       JObject (literal [
         ("files", JArray [JString "*.html"]);
         ("extends", JArray [JString "plugin:@angular-eslint/template/recommended"]);
         ("rules", JObject (literal []))])])]).

(** [createProjectESLintConfig] on a project root, a project type and a
    prefix of any type. *)
Definition createProjectESLintConfig_dyn (rootPath : string)
    (projectRoot projectType prefix : Value) : result Value :=
  offset <- offsetFromRoot rootPath ;;
  Ok (JObject (literal [
    ("extends", JString (offset ++ ".eslintrc.json"));
    ("ignorePatterns", JArray [JString "!**/*"]);
    ("overrides", JArray [
       JObject (literal [
         ("files", JArray [JString "*.ts"]);
         ("parserOptions", JObject (literal [
            ("project",
             setESLintProjectBasedOnProjectType_dyn projectRoot projectType);
            ("createDefaultProgram", JBool true)]));
         ("rules", JObject (selectorRules_dyn prefix))]);
       JObject (literal [
         ("files", JArray [JString "*.html"]);
         ("rules", JObject (literal []))])])])).

(** The members of [Tree] that the remaining rules call besides those of
    [Schematics]: [delete], which gives the tree after the call, and
    [root.path]. *)
Class TreeMore {SC : Schematics} : Type := {
  tree_delete : Tree -> string -> result Tree;
  tree_root_path : Tree -> string
}.

Section Rules.

Context {RT : Runtime} {SC : Schematics} {TM : TreeMore}.

(** What a call of one of the rules below leaves: the tree after the call,
    and the rule it returns, if it returns one. *)
Definition Outcome : Type := result (Tree * option Rule).

Definition getAllSourceFilesForProject (stack : nat) (host : Tree)
    (projectName : string) : result (list string) :=
  workspaceJson <- readJsonInTree host "angular.json" ;;
  projects <- get_member workspaceJson "projects" ;;
  existingProjectConfig <- get_member projects projectName ;;
  root <- get_member existingProjectConfig "root" ;;
  let pathRoot := if is_string root "" then JString "src" else root in
  path <- normalize_dyn pathRoot ;;
  allFilesInDirInHost stack host path true.

Definition createESLintConfigForProject (projectName : string) (tree : Tree)
  : Outcome :=
  angularJSON <- readJsonInTree tree "angular.json" ;;
  projects <- get_member angularJSON "projects" ;;
  project <- get_member projects projectName ;;
  projectRoot <- get_member project "root" ;;
  projectType <- get_member project "projectType" ;;
  prefix <- get_member project "prefix" ;;
  if is_string projectRoot "" then Ok (tree, None)
  else
    dir <- normalize_dyn projectRoot ;;
    path <- Path.join dir ".eslintrc.json" ;;
    Ok (tree,
        Some (updateJsonInTree path
                (fun _ _ =>
                   createProjectESLintConfig_dyn (tree_root_path tree)
                     projectRoot projectType prefix))).

Definition removeTSLintJSONForProject (projectName : string) (tree : Tree)
  : Outcome :=
  angularJSON <- readJsonInTree tree "angular.json" ;;
  projects <- get_member angularJSON "projects" ;;
  project <- get_member projects projectName ;;
  projectRoot <- get_member project "root" ;;
  dir <- normalize_dyn (if truthy projectRoot then projectRoot else JString "/") ;;
  path <- Path.join dir "tslint.json" ;;
  tree' <- tree_delete tree path ;;
  Ok (tree', None).

(** [angularJSON.projects?.[workspaceName]]. *)
Definition optional_member (o : Value) (k : string) : result Value :=
  match o with
  | JUndefined | JNull => Ok JUndefined
  | _ => get_member o k
  end.

Definition createRootESLintConfigFile (workspaceName : string) (tree : Tree)
  : Outcome :=
  dir <- Path.normalize workspaceName ;;
  angularPath <- Path.join dir "angular.json" ;;
  angularJSON <- readJsonInTree tree angularPath ;;
  projects <- get_member angularJSON "projects" ;;
  project <- optional_member projects workspaceName ;;
  lintPrefix <-
    (if truthy project then get_member project "prefix" else Ok JNull) ;;
  dir' <- Path.normalize workspaceName ;;
  path <- Path.join dir' ".eslintrc.json" ;;
  Ok (tree,
      Some (updateJsonInTree path
              (fun _ _ => Ok (createRootESLintConfig_dyn lintPrefix)))).

End Rules.

(** A reference for [TreeMore] on the in-memory tree: [delete] removes the
    file and fails when there is none; the root is [/]. *)
Module ReferenceMore.

Fixpoint remove (files : Reference.Files) (key : string) : Reference.Files :=
  match files with
  | [] => []
  | (k, text) :: rest =>
      if k =? key then rest else (k, text) :: remove rest key
  end.

Definition files_delete (files : Reference.Files) (path : string)
  : result Reference.Files :=
  match Reference.file_key path with
  | Some key =>
      match Reference.lookup files key with
      | Some _ => Ok (remove files key)
      | None => Throw (TreeException ("Path " ++ key ++ " does not exist."))
      end
  | None => Throw (InvalidPathException path)
  end.

Definition tree_more : @TreeMore Reference.tree :=
  @Build_TreeMore Reference.tree files_delete (fun _ => "/").

End ReferenceMore.

(** The number of code units of [s] that satisfy [p]. *)
Fixpoint count_units (p : ascii -> bool) (s : string) : nat :=
  match s with
  | EmptyString => 0
  | String c s' => (if p c then 1 else 0) + count_units p s'
  end.

(** The number of files of a listing. *)
Fixpoint count_files (l : Listing) : nat :=
  match l with
  | Dir files dirs =>
      List.length files
      + fold_right (fun ds n => count_files (snd ds) + n) 0 dirs
  end.

(** The document that [addESLintTarget] makes of a workspace document with
    the properties [wsprops], whose [projects] are [projects], whose project
    [name] has the properties [project] and the [architect] mapping
    [architect]. *)
Definition with_target (name : string) (target : TargetName)
    (wsprops projects project architect : Props) : Value :=
  JObject (obj_replace wsprops "projects"
    (JObject (obj_replace projects name
       (JObject (obj_replace project "architect"
          (JObject (obj_set architect (TargetName_text target)
                      (eslintTargetConfig (lint_root project))))))))).


Section ReadsProject.

Context {RT : Runtime} {SC : Schematics}.

(** What the rules read of a project: the document of [angular.json], and
    in it the configuration of the project. *)
Definition reads_project (tree : Tree) (name : string) (project : Props)
  : Prop :=
  exists (text : string) (ws : Value) (projects : Props),
    tree_exists tree "angular.json" = true
    /\ tree_read tree "angular.json" = Some text
    /\ JSON_parse (stripJsonComments text) = inl ws
    /\ get_member ws "projects" = Ok (JObject projects)
    /\ obj_get projects name = Some (JObject project).

End ReadsProject.

(** Further sample trees. *)
Module SampleMore.

Definition project_tree : Reference.Files :=
  [("/angular.json", Sample.commented);
   ("/src/main.ts", "a");
   ("/src/app/app.component.ts", "b");
   ("/src/app/app.component.html", "c");
   ("/src/app/shared/util.ts", "d");
   ("/tslint.json", "{}");
   ("/libs/ui/tslint.json", "{}");
   ("/libs/ui/.eslintrc.json", "{ extends: ")].

Definition workspace_only : Reference.Files :=
  [("/workspace.json", Sample.text_of Sample.workspace)].

Definition shop_tree : Reference.Files :=
  [("/shop/angular.json", Sample.text_of Sample.workspace)].

Definition failing (_ : Value) (_ : unit) : result Value :=
  Throw (Error "refused").

Definition version2 : Value := JObject [("version", JNumber "2")].

Definition dependencies : Props :=
  [("zone.js", JString "0.10"); ("rxjs", JString "6.5");
   ("tslib", JString "2.0")].

End SampleMore.

(** The numeric order of array indices. *)
Definition idx_lt (a b : string) : Prop :=
  match array_index a, array_index b with
  | Some m, Some n => (m < n)%N
  | _, _ => False
  end.

(** Powers of ten. *)
Fixpoint pow10 (n : nat) : N :=
  match n with
  | O => 1%N
  | S n' => (10 * pow10 n')%N
  end.

(** An object in the order of [OrdinaryOwnPropertyKeys]: the properties
    [ra] whose keys are array indices, in ascending numeric order, then the
    other properties [rb]. *)
Definition canonical (ra rb : Props) : Prop :=
  StronglySorted idx_lt (keys ra)
  /\ Forall (fun k => is_array_index k = true) (keys ra)
  /\ Forall (fun k => is_array_index k = false) (keys rb)
  /\ NoDup (keys rb).

(* ================================================================== *)
(** * Properties *)

Unset Implicit Arguments.

(** ** Strings *)

Lemma append_assoc (a b c : string) : (a ++ b) ++ c = a ++ (b ++ c).
Proof.
  induction a as [|x a IH]; simpl; [reflexivity | now rewrite IH].
Qed.

Lemma append_empty_r (a : string) : a ++ "" = a.
Proof.
  induction a as [|x a IH]; simpl; [reflexivity | now rewrite IH].
Qed.

Lemma append_inj_l (p a b : string) : p ++ a = p ++ b -> a = b.
Proof.
  induction p as [|x p IH]; simpl; intros H; [exact H|].
  injection H as H. now apply IH.
Qed.

(** The loop of [offsetFromRoot] writes [../] once per turn. *)
Lemma offset_loop (n start : nat) (acc : string) :
  fold_left (fun offset (_ : nat) => offset ++ "../") (seq start n) acc
  = acc ++ Str.times n "../".
Proof.
  revert start acc; induction n as [|n IH]; intros start acc; simpl.
  - now rewrite append_empty_r.
  - rewrite IH, append_assoc. reflexivity.
Qed.

(** ** [normalize] and [join] on small paths *)

Example normalize_relative : Path.normalize "a/b" = Ok "a/b".
Proof. reflexivity. Qed.

Example normalize_absolute : Path.normalize "/a//b/" = Ok "/a/b".
Proof. reflexivity. Qed.

Example normalize_dots : Path.normalize "./a/../b" = Ok "b".
Proof. reflexivity. Qed.

Example normalize_above_root :
  Path.normalize "/a/../.." = Throw (InvalidPathException "/a/../..").
Proof. reflexivity. Qed.

Example join_relative : Path.join "src" "app" = Ok "src/app".
Proof. reflexivity. Qed.

Example join_root : Path.join "/" "src" = Ok "/src".
Proof. reflexivity. Qed.

(** ** [offsetFromRoot] *)

(** C1 (as amended): [offsetFromRoot p] is [../] written once per segment
    of [normalize p] split at [/]; an empty leading segment counts, so
    [/a/b] gives three; [offsetFromRoot ""] is [../], and
    [offsetFromRoot "a/b"], whose normalized form has two segments, is
    [../../]. *)
Theorem offsetFromRoot_per_segment :
  (forall p n : string,
      Path.normalize p = Ok n ->
      offsetFromRoot p
      = Ok (Str.times (List.length (Str.split_slash n)) "../"))
  /\ offsetFromRoot "" = Ok "../"
  /\ offsetFromRoot "a/b" = Ok "../../"
  /\ offsetFromRoot "/a/b" = Ok "../../../".
Proof.
  split; [|repeat split; reflexivity].
  intros p n Hn. unfold offsetFromRoot. rewrite Hn. simpl.
  now rewrite offset_loop.
Qed.

Lemma offsetFromRoot_per_segment_witness :
  Path.normalize "libs/../apps/shop" = Ok "apps/shop"
  /\ offsetFromRoot "libs/../apps/shop" = Ok "../../".
Proof.
  split; [reflexivity|].
  exact (proj1 offsetFromRoot_per_segment "libs/../apps/shop" "apps/shop"
           eq_refl).
Defined.

(** C1 as stated fails: [a/b] does not give three [../]. *)
Lemma offsetFromRoot_a_b_not_three :
  offsetFromRoot "a/b" <> Ok "../../../".
Proof.
  vm_compute. discriminate.
Qed.

(** ** Reading and updating JSON files *)

Lemma not_found_is_no_parse_error (e : exn) :
  is_not_found e -> ~ is_parse_error e.
Proof.
  intros [what ->] [path [message H]]. simpl in H. discriminate H.
Qed.

Section JsonInTree.

Context {RT : Runtime} {SC : Schematics}.

(** C2: on a path that the tree does not have, [readJsonInTree] fails with
    the not-found error, which is no parse error; on a path that the tree
    has, it parses the file's text with its comments stripped and returns
    the parsed value, or fails with the parse error, which carries the path
    and the parser's message. *)
Theorem readJsonInTree_spec (host : Tree) (path : PathArg) :
  (tree_exists host path = false ->
   readJsonInTree host path = Throw (Error ("Cannot find " ++ path_text path))
   /\ forall e, readJsonInTree host path = Throw e ->
                is_not_found e /\ ~ is_parse_error e)
  /\
  (forall text : string,
      tree_exists host path = true ->
      tree_read host path = Some text ->
      (forall json,
          JSON_parse (stripJsonComments text) = inl json ->
          readJsonInTree host path = Ok json)
      /\
      (forall message,
          JSON_parse (stripJsonComments text) = inr message ->
          readJsonInTree host path
          = Throw (Error ("Cannot parse " ++ path_text path ++ ": " ++ message))
          /\ is_parse_error
               (Error ("Cannot parse " ++ path_text path ++ ": " ++ message)))).
Proof.
  unfold readJsonInTree. split.
  - intros Hex. rewrite Hex. simpl. split; [reflexivity|].
    intros e He. injection He as <-.
    assert (Hnf : is_not_found (Error ("Cannot find " ++ path_text path)))
      by (now exists (path_text path)).
    split; [exact Hnf | now apply not_found_is_no_parse_error].
  - intros text Hex Hread. rewrite Hex, Hread. simpl. split.
    + intros json Hparse. now rewrite Hparse.
    + intros message Hparse. rewrite Hparse. split; [reflexivity|].
      now exists (path_text path), message.
Qed.

(** C3: on a path that the tree does not have, the rule of
    [updateJsonInTree] creates the file with the serialization of what the
    callback makes of the empty object; on a path whose file parses, it
    overwrites the file with the serialization of what the callback makes of
    the parsed contents; the serialization is [JSON.stringify] with an
    indentation of two, followed by a line feed. *)
Theorem updateJsonInTree_spec (path : string)
    (callback : Value -> SchematicContext -> result Value)
    (host : Tree) (context : SchematicContext) :
  (forall json,
      tree_exists host path = false ->
      callback (JObject []) context = Ok json ->
      updateJsonInTree path callback host context
      = tree_create host path (serializeJson json))
  /\
  (forall text current json,
      tree_exists host path = true ->
      tree_read host path = Some text ->
      JSON_parse (stripJsonComments text) = inl current ->
      callback current context = Ok json ->
      updateJsonInTree path callback host context
      = tree_overwrite host path (serializeJson json))
  /\
  (forall json text,
      JSON_stringify json 2 = Some text ->
      serializeJson json = text ++ Reference.LF).
Proof.
  unfold updateJsonInTree. repeat split.
  - intros json Hex Hcb. rewrite Hex. simpl. now rewrite Hcb.
  - intros text current json Hex Hread Hparse Hcb. rewrite Hex. simpl.
    unfold readJsonInTree. rewrite Hex, Hread. simpl. rewrite Hparse. simpl.
    now rewrite Hcb.
  - intros json text Hs. unfold serializeJson. now rewrite Hs.
Qed.

(** C4: [getWorkspacePath] is the first of [/workspace.json],
    [/angular.json], [/.angular.json], in this order, that the tree has, and
    [undefined] when it has none; the read that follows then fails with the
    not-found error, the tree having no file for [undefined]. *)
Theorem getWorkspacePath_first_existing (host : Tree) :
  getWorkspacePath host
  = (if tree_exists host "/workspace.json" then at_path "/workspace.json"
     else if tree_exists host "/angular.json" then at_path "/angular.json"
     else if tree_exists host "/.angular.json" then at_path "/.angular.json"
     else undefined_path)
  /\
  (tree_exists host "/workspace.json" = false ->
   tree_exists host "/angular.json" = false ->
   tree_exists host "/.angular.json" = false ->
   getWorkspacePath host = undefined_path
   /\ (tree_exists host undefined_path = false ->
       readJsonInTree host (getWorkspacePath host)
       = Throw (Error "Cannot find undefined")
       /\ is_not_found (Error "Cannot find undefined")
       /\ forall name,
            getProjectConfig host name = Throw (Error "Cannot find undefined"))).
Proof.
  unfold getWorkspacePath, possibleFiles. simpl. split.
  - destruct (tree_exists host "/workspace.json"),
             (tree_exists host "/angular.json"),
             (tree_exists host "/.angular.json"); reflexivity.
  - intros H1 H2 H3. rewrite H1, H2, H3. simpl. split; [reflexivity|].
    intros Hu. repeat split.
    + unfold readJsonInTree. unfold undefined_path in Hu. now rewrite Hu.
    + now exists "undefined".
    + intros name. unfold getProjectConfig, getWorkspacePath, possibleFiles.
      simpl. rewrite H1, H2, H3. simpl. unfold readJsonInTree.
      unfold undefined_path in Hu. now rewrite Hu.
Qed.

End JsonInTree.

Lemma readJsonInTree_spec_witness :
  (@tree_exists Reference.tree Sample.angular_tree "/tsconfig.json" = false
   /\ @readJsonInTree Reference.runtime Reference.tree
        Sample.angular_tree "/tsconfig.json"
      = Throw (Error "Cannot find /tsconfig.json"))
  /\
  (@tree_exists Reference.tree Sample.angular_tree "/angular.json" = true
   /\ @tree_read Reference.tree Sample.angular_tree "/angular.json"
      = Some Sample.commented
   /\ Reference.parse (Reference.strip Reference.in_code Sample.commented)
      = inl Sample.workspace
   /\ @readJsonInTree Reference.runtime Reference.tree
        Sample.angular_tree "/angular.json"
      = Ok Sample.workspace)
  /\
  (@tree_exists Reference.tree Sample.broken_tree "/angular.json" = true
   /\ @tree_read Reference.tree Sample.broken_tree "/angular.json"
      = Some "{ projects: "
   /\ Reference.parse (Reference.strip Reference.in_code "{ projects: ")
      = inr "Unexpected token in JSON"
   /\ @readJsonInTree Reference.runtime Reference.tree
        Sample.broken_tree "/angular.json"
      = Throw (Error "Cannot parse /angular.json: Unexpected token in JSON")).
Proof.
  split; [|split].
  - split; [reflexivity|].
    exact (proj1 (proj1 (@readJsonInTree_spec Reference.runtime Reference.tree
                           Sample.angular_tree (at_path "/tsconfig.json"))
                    eq_refl)).
  - split; [reflexivity|]. split; [reflexivity|]. split; [reflexivity|].
    exact (proj1 (proj2 (@readJsonInTree_spec Reference.runtime Reference.tree
                           Sample.angular_tree (at_path "/angular.json"))
                    Sample.commented eq_refl eq_refl)
             Sample.workspace eq_refl).
  - split; [reflexivity|]. split; [reflexivity|]. split; [reflexivity|].
    exact (proj1
             (proj2 (proj2 (@readJsonInTree_spec Reference.runtime
                              Reference.tree Sample.broken_tree
                              (at_path "/angular.json"))
                       "{ projects: " eq_refl eq_refl)
                "Unexpected token in JSON" eq_refl)).
Defined.

Lemma updateJsonInTree_spec_witness :
  (@tree_exists Reference.tree Sample.angular_tree "/package.json" = false
   /\ Sample.set_version (JObject []) tt = Ok (JObject [("version", JNumber "2")])
   /\ @updateJsonInTree Reference.runtime Reference.tree "/package.json"
        Sample.set_version Sample.angular_tree tt
      = @tree_create Reference.tree Sample.angular_tree "/package.json"
          (@serializeJson Reference.runtime
             (JObject [("version", JNumber "2")])))
  /\
  (@tree_exists Reference.tree Sample.angular_tree "/.angular.json" = true
   /\ @tree_read Reference.tree Sample.angular_tree "/.angular.json" = Some "{}"
   /\ Reference.parse (Reference.strip Reference.in_code "{}") = inl (JObject [])
   /\ @updateJsonInTree Reference.runtime Reference.tree "/.angular.json"
        Sample.set_version Sample.angular_tree tt
      = @tree_overwrite Reference.tree Sample.angular_tree "/.angular.json"
          (@serializeJson Reference.runtime
             (JObject [("version", JNumber "2")])))
  /\
  (Reference.stringify (JObject [("version", JNumber "2")]) 2
   = Some (Sample.text_of (JObject [("version", JNumber "2")]))
   /\ @serializeJson Reference.runtime (JObject [("version", JNumber "2")])
      = Sample.text_of (JObject [("version", JNumber "2")]) ++ Reference.LF)
  /\
  (exists host' : Reference.Files,
      @updateJsonInTree Reference.runtime Reference.tree "/package.json"
        Sample.set_version Sample.angular_tree tt = Ok host'
      /\ @tree_read Reference.tree host' "/package.json"
         = Some (Sample.text_of (JObject [("version", JNumber "2")])
                 ++ Reference.LF)
      /\ @tree_read Reference.tree host' "/angular.json"
         = Some Sample.commented).
Proof.
  split; [|split; [|split; [|eexists; repeat split; reflexivity]]].
  - split; [reflexivity|]. split; [reflexivity|].
    exact (proj1 (@updateJsonInTree_spec Reference.runtime Reference.tree
                    "/package.json" Sample.set_version Sample.angular_tree tt)
             (JObject [("version", JNumber "2")]) eq_refl eq_refl).
  - split; [reflexivity|]. split; [reflexivity|]. split; [reflexivity|].
    exact (proj1 (proj2 (@updateJsonInTree_spec Reference.runtime
                           Reference.tree "/.angular.json" Sample.set_version
                           Sample.angular_tree tt))
             "{}" (JObject []) (JObject [("version", JNumber "2")])
             eq_refl eq_refl eq_refl eq_refl).
  - split; [reflexivity|].
    exact (proj2 (proj2 (@updateJsonInTree_spec Reference.runtime
                           Reference.tree "/package.json" Sample.set_version
                           Sample.angular_tree tt))
             (JObject [("version", JNumber "2")])
             (Sample.text_of (JObject [("version", JNumber "2")])) eq_refl).
Defined.

Lemma getWorkspacePath_first_existing_witness :
  @tree_exists Reference.tree Sample.source_tree "/workspace.json" = false
  /\ @tree_exists Reference.tree Sample.source_tree undefined_path = false
  /\ @getWorkspacePath Reference.tree Sample.source_tree
     = at_path "/angular.json"
  /\ @getWorkspacePath Reference.tree [] = undefined_path
  /\ @getProjectConfig Reference.runtime Reference.tree [] "shop"
     = Throw (Error "Cannot find undefined").
Proof.
  split; [reflexivity|]. split; [reflexivity|]. split; [reflexivity|].
  split; [reflexivity|].
  exact (proj2 (proj2
           (proj2 (proj2 (@getWorkspacePath_first_existing Reference.runtime
                            Reference.tree [])
                     eq_refl eq_refl eq_refl) eq_refl)) "shop").
Defined.

(** ** Own properties *)

Lemma has_key_get (props : Props) (k : string) (v : Value) :
  obj_get props k = Some v -> has_key props k = true.
Proof.
  unfold has_key. now intros ->.
Qed.

Lemma obj_get_replace_same (props : Props) (k : string) (v : Value) :
  has_key props k = true -> obj_get (obj_replace props k v) k = Some v.
Proof.
  unfold has_key. induction props as [|[k' v'] rest IH]; simpl.
  - discriminate.
  - destruct (k' =? k) eqn:E; simpl.
    + now rewrite String.eqb_refl.
    + rewrite E. exact IH.
Qed.

Lemma obj_get_replace_other (props : Props) (k k' : string) (v : Value) :
  k' <> k -> obj_get (obj_replace props k v) k' = obj_get props k'.
Proof.
  intros Hne. induction props as [|[k0 v0] rest IH]; simpl; [reflexivity|].
  destruct (k0 =? k) eqn:E; simpl.
  - apply String.eqb_eq in E. subst k0.
    destruct (k =? k') eqn:E'; [|reflexivity].
    apply String.eqb_eq in E'. now subst.
  - destruct (k0 =? k'); [reflexivity | exact IH].
Qed.

Lemma keys_replace (props : Props) (k : string) (v : Value) :
  keys (obj_replace props k v) = keys props.
Proof.
  unfold keys. induction props as [|[k0 v0] rest IH]; simpl; [reflexivity|].
  destruct (k0 =? k) eqn:E; simpl.
  - apply String.eqb_eq in E. now subst.
  - now rewrite IH.
Qed.

Lemma obj_get_insert_index_same (props : Props) (n : N) (k : string)
    (v : Value) :
  obj_get props k = None -> obj_get (obj_insert_index props n k v) k = Some v.
Proof.
  induction props as [|[k0 v0] rest IH]; simpl; intros Hnone.
  - now rewrite String.eqb_refl.
  - destruct (k0 =? k) eqn:E; [discriminate|].
    destruct (array_index k0) as [m|]; [destruct (m <? n)%N|]; simpl;
      rewrite ?E, ?String.eqb_refl; auto.
Qed.

Lemma obj_get_insert_index_other (props : Props) (n : N) (k k' : string)
    (v : Value) :
  k' <> k -> obj_get (obj_insert_index props n k v) k' = obj_get props k'.
Proof.
  intros Hne. apply not_eq_sym in Hne. apply String.eqb_neq in Hne.
  induction props as [|[k0 v0] rest IH]; simpl.
  - now rewrite Hne.
  - destruct (array_index k0) as [m|]; [destruct (m <? n)%N|]; simpl;
      rewrite ?Hne; try reflexivity.
    now rewrite IH.
Qed.

Lemma obj_get_app (a b : Props) (k : string) :
  obj_get (a ++ b)%list k
  = match obj_get a k with Some v => Some v | None => obj_get b k end.
Proof.
  induction a as [|[k0 v0] rest IH]; simpl; [reflexivity|].
  destruct (k0 =? k); [reflexivity | exact IH].
Qed.

Lemma obj_get_set_same (props : Props) (k : string) (v : Value) :
  obj_get (obj_set props k v) k = Some v.
Proof.
  unfold obj_set. destruct (has_key props k) eqn:Hk.
  - now apply obj_get_replace_same.
  - unfold has_key in Hk.
    destruct (obj_get props k) eqn:Hg; [discriminate|].
    destruct (array_index k).
    + now apply obj_get_insert_index_same.
    + rewrite obj_get_app, Hg. simpl. now rewrite String.eqb_refl.
Qed.

Lemma obj_get_set_other (props : Props) (k k' : string) (v : Value) :
  k' <> k -> obj_get (obj_set props k v) k' = obj_get props k'.
Proof.
  intros Hne. unfold obj_set. destruct (has_key props k).
  - now apply obj_get_replace_other.
  - destruct (array_index k).
    + now apply obj_get_insert_index_other.
    + rewrite obj_get_app. destruct (obj_get props k'); [reflexivity|].
      simpl. apply not_eq_sym in Hne. apply String.eqb_neq in Hne.
      now rewrite Hne.
Qed.

Lemma select_replace_same (props : Props) (k : string) (v : Value)
    (rest : list string) :
  has_key props k = true ->
  select (JObject (obj_replace props k v)) (k :: rest) = select v rest.
Proof.
  intros Hk. simpl. now rewrite obj_get_replace_same.
Qed.

Lemma select_replace_other (props : Props) (k k' : string) (v : Value)
    (rest : list string) :
  k' <> k ->
  select (JObject (obj_replace props k v)) (k' :: rest)
  = select (JObject props) (k' :: rest).
Proof.
  intros Hne. simpl. now rewrite obj_get_replace_other.
Qed.

Lemma select_member (props : Props) (k : string) (v : Value)
    (rest : list string) :
  obj_get props k = Some v ->
  select (JObject props) (k :: rest) = select v rest.
Proof.
  intros Hg. simpl. now rewrite Hg.
Qed.

(** A document whose [projects] member is an object is an object. *)
Lemma projects_of_object (ws : Value) (projects : Props) :
  get_member ws "projects" = Ok (JObject projects) ->
  exists wsprops,
    ws = JObject wsprops /\ obj_get wsprops "projects" = Some (JObject projects).
Proof.
  destruct ws as [| | b | r | s | items | wsprops]; simpl; try discriminate.
  - exists wsprops. split; [reflexivity|].
    destruct (obj_get wsprops "projects"); [congruence | discriminate].
Qed.

(** ** The lint target of a project *)

(** The document that [addESLintTarget] returns, written out. *)
Lemma addESLintTarget_result (name : string) (target : TargetName)
    (wsprops projects project architect : Props) :
  obj_get wsprops "projects" = Some (JObject projects) ->
  obj_get projects name = Some (JObject project) ->
  obj_get project "architect" = Some (JObject architect) ->
  addESLintTarget name target (JObject wsprops)
  = Ok (JObject (obj_replace wsprops "projects"
          (JObject (obj_replace projects name
             (JObject (obj_replace project "architect"
                (JObject (obj_set architect (TargetName_text target)
                            (eslintTargetConfig (lint_root project)))))))))).
Proof.
  intros Hp Hn Ha. unfold addESLintTarget, lint_root. simpl.
  rewrite Hp. simpl. rewrite Hn. simpl. rewrite Ha. simpl.
  rewrite (has_key_get _ _ _ Hp), (has_key_get _ _ _ Hn),
    (has_key_get _ _ _ Ha).
  reflexivity.
Qed.

Lemma eslintTargetConfig_string (r : string) :
  eslintTargetConfig (JString r) = lint_target r.
Proof. reflexivity. Qed.

Section LintTarget.

Context {RT : Runtime} {SC : Schematics}.

Lemma getWorkspacePath_exists (host : Tree) (path : string) :
  getWorkspacePath host = at_path path -> tree_exists host path = true.
Proof.
  unfold getWorkspacePath. intros H.
  destruct (filter (fun p : string => tree_exists host p) possibleFiles)
    as [|p rest] eqn:E; [discriminate|].
  injection H as ->.
  assert (Hin : In path (filter (fun p : string => tree_exists host p)
                           possibleFiles))
    by (rewrite E; now left).
  apply filter_In in Hin. exact (proj2 Hin).
Qed.

(** What the rule of [updateWorkspaceInTree] does on a workspace file that
    parses. *)
Lemma updateWorkspaceInTree_run
    (callback : Value -> SchematicContext -> Tree -> result Value)
    (host : Tree) (context : SchematicContext) (path text : string)
    (ws : Value) :
  getWorkspacePath host = at_path path ->
  tree_read host path = Some text ->
  JSON_parse (stripJsonComments text) = inl ws ->
  updateWorkspaceInTree callback host context
  = (json <- callback ws context host ;;
     tree_overwrite host path (serializeJson json)).
Proof.
  intros Hpath Hread Hparse. unfold updateWorkspaceInTree, readJsonInTree.
  rewrite Hpath, (getWorkspacePath_exists _ _ Hpath), Hread. simpl.
  now rewrite Hparse.
Qed.

(** C5: for a project of the workspace document with a root and an
    [architect] mapping, the rule of [addESLintTargetToProject] overwrites
    the workspace file with a document that holds, at the target name in
    the project's [architect] (whatever was there before), the target with
    the builder [@angular-eslint/builder:lint] and the patterns
    [r/**/*.ts] and [r/**/*.html], where [r] is [src] for the empty root and
    the root otherwise. *)
Theorem addESLintTargetToProject_writes_target
    (host : Tree) (context : SchematicContext) (path text : string)
    (ws : Value) (projects project architect : Props) (root name : string)
    (target : TargetName) :
  getWorkspacePath host = at_path path ->
  tree_read host path = Some text ->
  JSON_parse (stripJsonComments text) = inl ws ->
  get_member ws "projects" = Ok (JObject projects) ->
  obj_get projects name = Some (JObject project) ->
  obj_get project "root" = Some (JString root) ->
  obj_get project "architect" = Some (JObject architect) ->
  exists ws' : Value,
    addESLintTarget name target ws = Ok ws'
    /\ addESLintTargetToProject name target host context
       = tree_overwrite host path (serializeJson ws')
    /\ select ws' (target_place name target)
       = Ok (lint_target (if root =? "" then "src" else root)).
Proof.
  intros Hpath Hread Hparse Hprojects Hname Hroot Harch.
  destruct (projects_of_object _ _ Hprojects) as [wsprops [-> Hp]].
  pose proof (addESLintTarget_result name target _ _ _ _ Hp Hname Harch)
    as Hres.
  eexists. split; [exact Hres|]. split.
  - unfold addESLintTargetToProject.
    rewrite (updateWorkspaceInTree_run _ _ context _ _ _ Hpath Hread Hparse).
    now rewrite Hres.
  - unfold target_place.
    rewrite select_replace_same by exact (has_key_get _ _ _ Hp).
    rewrite select_replace_same by exact (has_key_get _ _ _ Hname).
    rewrite select_replace_same by exact (has_key_get _ _ _ Harch).
    simpl. rewrite obj_get_set_same. unfold lint_root. rewrite Hroot. simpl.
    destruct (root =? ""); apply f_equal, eslintTargetConfig_string.
Qed.

(** C10: for a project of the workspace document with an [architect]
    mapping, the document that [addESLintTargetToProject] writes differs
    from the one it read at [projects[name].architect[target]] only: every
    place that is neither on the way to the target nor below it has the
    value it had, the document, its [projects] and the project keep their
    keys in their order, and [architect] keeps its keys, with the target
    name added at the end when it is new. *)
Theorem addESLintTargetToProject_frame
    (host : Tree) (context : SchematicContext) (path text : string)
    (ws : Value) (projects project architect : Props) (name : string)
    (target : TargetName) :
  getWorkspacePath host = at_path path ->
  tree_read host path = Some text ->
  JSON_parse (stripJsonComments text) = inl ws ->
  get_member ws "projects" = Ok (JObject projects) ->
  obj_get projects name = Some (JObject project) ->
  obj_get project "architect" = Some (JObject architect) ->
  exists ws' : Value,
    addESLintTargetToProject name target host context
    = tree_overwrite host path (serializeJson ws')
    /\ (forall place : list string,
           starts_with (target_place name target) place = false ->
           starts_with place (target_place name target) = false ->
           select ws' place = select ws place)
    /\ keys_at ws' [] = keys_at ws []
    /\ keys_at ws' ["projects"] = keys_at ws ["projects"]
    /\ keys_at ws' ["projects"; name] = keys_at ws ["projects"; name]
    /\ keys_at ws' ["projects"; name; "architect"]
       = Ok (if has_key architect (TargetName_text target) then keys architect
             else (keys architect ++ [TargetName_text target])%list).
Proof.
  intros Hpath Hread Hparse Hprojects Hname Harch.
  destruct (projects_of_object _ _ Hprojects) as [wsprops [-> Hp]].
  pose proof (addESLintTarget_result name target _ _ _ _ Hp Hname Harch)
    as Hres.
  pose proof (has_key_get _ _ _ Hp) as Kp.
  pose proof (has_key_get _ _ _ Hname) as Kn.
  pose proof (has_key_get _ _ _ Harch) as Ka.
  match type of Hres with _ = Ok ?w => exists w end.
  split; [|split; [|split; [|split; [|split]]]].
  - unfold addESLintTargetToProject.
    rewrite (updateWorkspaceInTree_run _ _ context _ _ _ Hpath Hread Hparse).
    rewrite Hres. reflexivity.
  - intros place Hbelow Hway. unfold target_place in Hbelow, Hway.
    destruct place as [|k1 place]; [discriminate Hway|].
    destruct (string_dec k1 "projects") as [->|N1];
      [|now apply select_replace_other].
    rewrite select_replace_same, (select_member _ _ _ _ Hp) by exact Kp.
    destruct place as [|k2 place]; [discriminate Hway|].
    destruct (string_dec k2 name) as [->|N2];
      [|now apply select_replace_other].
    rewrite select_replace_same, (select_member _ _ _ _ Hname) by exact Kn.
    simpl in Hbelow, Hway. rewrite String.eqb_refl in Hbelow, Hway.
    simpl in Hbelow, Hway.
    destruct place as [|k3 place]; [discriminate Hway|].
    destruct (string_dec k3 "architect") as [->|N3];
      [|now apply select_replace_other].
    rewrite select_replace_same, (select_member _ _ _ _ Harch) by exact Ka.
    simpl in Hbelow, Hway.
    destruct place as [|k4 place]; [discriminate Hway|].
    destruct (string_dec k4 (TargetName_text target)) as [->|N4].
    + rewrite String.eqb_refl in Hbelow. discriminate Hbelow.
    + simpl. now rewrite obj_get_set_other.
  - unfold keys_at. simpl. now rewrite keys_replace.
  - unfold keys_at. rewrite select_replace_same by exact Kp.
    rewrite (select_member _ _ _ _ Hp). simpl. now rewrite keys_replace.
  - unfold keys_at. rewrite select_replace_same by exact Kp.
    rewrite select_replace_same by exact Kn.
    rewrite (select_member _ _ _ _ Hp), (select_member _ _ _ _ Hname). simpl.
    now rewrite keys_replace.
  - unfold keys_at. rewrite select_replace_same by exact Kp.
    rewrite select_replace_same by exact Kn.
    rewrite select_replace_same by exact Ka. simpl. apply f_equal.
    unfold obj_set. destruct (has_key architect (TargetName_text target)).
    + now rewrite keys_replace.
    + destruct target; simpl; unfold keys; now rewrite map_app.
Qed.

End LintTarget.

Lemma addESLintTargetToProject_writes_target_witness :
  (exists ws' : Value,
      addESLintTarget "shop" lint Sample.workspace = Ok ws'
      /\ @addESLintTargetToProject Reference.runtime Reference.tree
           "shop" lint Sample.angular_tree tt
         = @tree_overwrite Reference.tree Sample.angular_tree "/angular.json"
             (@serializeJson Reference.runtime ws')
      /\ select ws' (target_place "shop" lint) = Ok (lint_target "src"))
  /\
  (exists ws' : Value,
      addESLintTarget "ui" eslint Sample.workspace = Ok ws'
      /\ @addESLintTargetToProject Reference.runtime Reference.tree
           "ui" eslint Sample.angular_tree tt
         = @tree_overwrite Reference.tree Sample.angular_tree "/angular.json"
             (@serializeJson Reference.runtime ws')
      /\ select ws' (target_place "ui" eslint) = Ok (lint_target "libs/ui")).
Proof.
  split.
  - exact (@addESLintTargetToProject_writes_target Reference.runtime
             Reference.tree Sample.angular_tree tt "/angular.json"
             Sample.commented Sample.workspace Sample.projects
             (Sample.project "") Sample.architect "" "shop" lint
             eq_refl eq_refl eq_refl eq_refl eq_refl eq_refl eq_refl).
  - exact (@addESLintTargetToProject_writes_target Reference.runtime
             Reference.tree Sample.angular_tree tt "/angular.json"
             Sample.commented Sample.workspace Sample.projects
             (Sample.project "libs/ui") Sample.architect "libs/ui" "ui" eslint
             eq_refl eq_refl eq_refl eq_refl eq_refl eq_refl eq_refl).
Defined.

Lemma addESLintTargetToProject_frame_witness :
  exists ws' : Value,
    @addESLintTargetToProject Reference.runtime Reference.tree
      "ui" eslint Sample.angular_tree tt
    = @tree_overwrite Reference.tree Sample.angular_tree "/angular.json"
        (@serializeJson Reference.runtime ws')
    /\ select ws' ["projects"; "shop"] = select Sample.workspace ["projects"; "shop"]
    /\ select ws' ["projects"; "ui"; "root"] = Ok (JString "libs/ui")
    /\ select ws' ["projects"; "ui"; "architect"; "lint"]
       = Ok (JObject [("builder", JString "tslint")])
    /\ select ws' ["defaultProject"] = Ok (JString "shop")
    /\ keys_at ws' ["projects"; "ui"; "architect"]
       = Ok ["build"; "lint"; "eslint"].
Proof.
  destruct (@addESLintTargetToProject_frame Reference.runtime Reference.tree
              Sample.angular_tree tt "/angular.json" Sample.commented
              Sample.workspace Sample.projects (Sample.project "libs/ui")
              Sample.architect "ui" eslint
              eq_refl eq_refl eq_refl eq_refl eq_refl eq_refl)
    as [ws' [Hrule [Hframe [_ [_ [_ Hkeys]]]]]].
  exists ws'. split; [exact Hrule|].
  split; [exact (Hframe ["projects"; "shop"] eq_refl eq_refl)|].
  split; [exact (Hframe ["projects"; "ui"; "root"] eq_refl eq_refl)|].
  split; [exact (Hframe ["projects"; "ui"; "architect"; "lint"]
                   eq_refl eq_refl)|].
  split; [exact (Hframe ["defaultProject"] eq_refl eq_refl)|].
  exact Hkeys.
Defined.

(** ** The ESLint configurations *)

(** C6: the configuration of a project extends [.eslintrc.json] at the
    offset of the root path, ignores [!**/*], and names in the [*.ts]
    override the three tsconfig files of an application (app, spec, e2e) or
    the two of a library (lib, spec). *)
Theorem createProjectESLintConfig_spec
    (rootPath projectRoot : string) (projectType : ProjectType)
    (prefix offset : string) :
  offsetFromRoot rootPath = Ok offset ->
  exists config : Value,
    createProjectESLintConfig rootPath projectRoot projectType prefix
    = Ok config
    /\ select config ["extends"] = Ok (JString (offset ++ ".eslintrc.json"))
    /\ select config ["ignorePatterns"] = Ok (JArray [JString "!**/*"])
    /\ select config ["overrides"; "0"; "files"] = Ok (JArray [JString "*.ts"])
    /\ select config ["overrides"; "0"; "parserOptions"; "project"]
       = Ok (setESLintProjectBasedOnProjectType projectRoot projectType)
    /\ setESLintProjectBasedOnProjectType projectRoot projectType
       = match projectType with
         | application =>
             JArray [JString (projectRoot ++ "/tsconfig.app.json");
                     JString (projectRoot ++ "/tsconfig.spec.json");
                     JString (projectRoot ++ "/e2e/tsconfig.json")]
         | library =>
             JArray [JString (projectRoot ++ "/tsconfig.lib.json");
                     JString (projectRoot ++ "/tsconfig.spec.json")]
         end.
Proof.
  intros Hoff. unfold createProjectESLintConfig. rewrite Hoff. simpl bind.
  eexists. split; [reflexivity|].
  split; [reflexivity|]. split; [reflexivity|]. split; [reflexivity|].
  split; [reflexivity|]. destruct projectType; reflexivity.
Qed.

Lemma createProjectESLintConfig_spec_witness :
  offsetFromRoot "/" = Ok "../../"
  /\ exists config : Value,
       createProjectESLintConfig "/" "libs/foo" library "lib" = Ok config
       /\ select config ["extends"] = Ok (JString "../../.eslintrc.json")
       /\ select config ["overrides"; "0"; "parserOptions"; "project"]
          = Ok (JArray [JString "libs/foo/tsconfig.lib.json";
                        JString "libs/foo/tsconfig.spec.json"]).
Proof.
  split; [reflexivity|].
  destruct (createProjectESLintConfig_spec "/" "libs/foo" library "lib"
              "../../" eq_refl)
    as [config [Hc [Hext [_ [_ [Hproj Hlist]]]]]].
  exists config. split; [exact Hc|]. split; [exact Hext|].
  rewrite Hproj, Hlist. reflexivity.
Defined.

(** C7 (as amended): every root configuration has [root: true] and ignores
    [projects/**/*]; without a prefix, and with the empty prefix, the rules
    of the [*.ts] override are empty; with a prefix that is not empty they
    are the directive selector rule (attribute, the prefix, camelCase) and
    the component selector rule (element, the prefix, kebab-case). *)
Theorem createRootESLintConfig_spec :
  (forall prefix : option string,
      select (createRootESLintConfig prefix) ["root"] = Ok (JBool true)
      /\ select (createRootESLintConfig prefix) ["ignorePatterns"]
         = Ok (JArray [JString "projects/**/*"])
      /\ select (createRootESLintConfig prefix) ["overrides"; "0"; "files"]
         = Ok (JArray [JString "*.ts"]))
  /\ select (createRootESLintConfig None) ts_rules = Ok (JObject [])
  /\ select (createRootESLintConfig (Some "")) ts_rules = Ok (JObject [])
  /\ (forall p : string,
         p <> "" ->
         select (createRootESLintConfig (Some p)) ts_rules
         = Ok (JObject
                 [("@angular-eslint/directive-selector",
                   selector_rule "attribute" p "camelCase");
                  ("@angular-eslint/component-selector",
                   selector_rule "element" p "kebab-case")])).
Proof.
  split; [|split; [reflexivity | split; [reflexivity|]]].
  - intros [p|]; [|repeat split].
    unfold createRootESLintConfig.
    destruct (truthy (JString p)); repeat split.
  - intros p Hp. unfold createRootESLintConfig. simpl truthy.
    apply String.eqb_neq in Hp. rewrite Hp. reflexivity.
Qed.

Lemma createRootESLintConfig_spec_witness :
  "app" <> ""
  /\ select (createRootESLintConfig (Some "app"))
       (ts_rules ++ ["@angular-eslint/component-selector"; "1"; "style"])%list
     = Ok (JString "kebab-case").
Proof.
  assert (Hne : "app" <> "") by discriminate.
  split; [exact Hne|].
  pose proof (proj2 (proj2 (proj2 createRootESLintConfig_spec)) "app" Hne)
    as Hrules.
  unfold ts_rules in *.
  change (x <- select (createRootESLintConfig (Some "app"))
                 ["overrides"; "0"; "rules"] ;;
          select x ["@angular-eslint/component-selector"; "1"; "style"]
          = Ok (JString "kebab-case")).
  rewrite Hrules. reflexivity.
Defined.

(** C7 as stated fails: the empty prefix is not null, and the configuration
    it gives has no directive selector rule. *)
Lemma createRootESLintConfig_empty_prefix :
  Some "" <> None
  /\ select (createRootESLintConfig (Some ""))
       (ts_rules ++ ["@angular-eslint/directive-selector"])%list
     = Ok JUndefined
  /\ select (createRootESLintConfig (Some "")) ts_rules
     <> Ok (JObject
              [("@angular-eslint/directive-selector",
                selector_rule "attribute" "" "camelCase");
               ("@angular-eslint/component-selector",
                selector_rule "element" "" "kebab-case")]).
Proof.
  split; [discriminate|]. split; [reflexivity|].
  vm_compute. discriminate.
Qed.

(** ** Sorting *)

Lemma sort_insert_perm (x : string) (l : list string) :
  Permutation (sort_insert x l) (x :: l).
Proof.
  induction l as [|y l IH]; simpl; [reflexivity|].
  destruct (String.leb x y); [reflexivity|].
  rewrite IH. apply perm_swap.
Qed.

Lemma sort_perm (l : list string) : Permutation (sort l) l.
Proof.
  induction l as [|x l IH]; simpl; [reflexivity|].
  rewrite sort_insert_perm. now constructor.
Qed.

Lemma sort_insert_sorted (x : string) (l : list string) :
  Sorted lex_le l -> Sorted lex_le (sort_insert x l).
Proof.
  induction l as [|y l IH]; simpl; intros Hs.
  - repeat constructor.
  - destruct (String.leb x y) eqn:E.
    + constructor; [exact Hs | constructor; exact E].
    + inversion Hs as [|? ? Hs' Hhd]; subst.
      constructor; [now apply IH|].
      assert (Hyx : lex_le y x).
      { destruct (String.leb_total x y) as [H|H]; [congruence | exact H]. }
      destruct l as [|z l]; simpl.
      * constructor; exact Hyx.
      * destruct (String.leb x z); constructor; [exact Hyx|].
        inversion Hhd; assumption.
Qed.

Lemma sort_sorted (l : list string) : Sorted lex_le (sort l).
Proof.
  induction l as [|x l IH]; simpl; [constructor | now apply sort_insert_sorted].
Qed.

(** ** Objects built by [obj_set] *)

Lemma obj_get_none (props : Props) (k : string) :
  obj_get props k = None <-> ~ In k (keys props).
Proof.
  unfold keys. induction props as [|[k0 v0] rest IH]; simpl.
  - tauto.
  - destruct (k0 =? k) eqn:E.
    + apply String.eqb_eq in E. split; [discriminate | tauto].
    + apply String.eqb_neq in E. tauto.
Qed.

Lemma keys_insert_index (props : Props) (n : N) (k : string) (v : Value) :
  Permutation (keys (obj_insert_index props n k v)) (k :: keys props).
Proof.
  unfold keys. induction props as [|[k0 v0] rest IH]; simpl; [reflexivity|].
  destruct (array_index k0) as [m|]; [destruct (m <? n)%N|]; simpl;
    try reflexivity.
  rewrite IH. apply perm_swap.
Qed.

Lemma keys_set_nodup (props : Props) (k : string) (v : Value) :
  NoDup (keys props) -> NoDup (keys (obj_set props k v)).
Proof.
  intros Hnd. unfold obj_set. destruct (has_key props k) eqn:Hk.
  - now rewrite keys_replace.
  - assert (Hnin : ~ In k (keys props)).
    { apply obj_get_none. unfold has_key in Hk.
      destruct (obj_get props k); [discriminate | reflexivity]. }
    assert (Hcons : NoDup (k :: keys props)) by now constructor.
    destruct (array_index k).
    + eapply Permutation_NoDup; [|exact Hcons].
      symmetry. apply keys_insert_index.
    + unfold keys. rewrite map_app. simpl.
      eapply Permutation_NoDup; [|exact Hcons].
      apply Permutation_cons_append.
Qed.

Lemma literal_from_nodup (l acc : Props) :
  NoDup (keys acc) ->
  NoDup (keys (fold_left (fun o kv => obj_set o (fst kv) (snd kv)) l acc)).
Proof.
  revert acc. induction l as [|[k v] l IH]; simpl; intros acc Hnd; [exact Hnd|].
  apply IH. now apply keys_set_nodup.
Qed.

Lemma literal_from_get (l acc : Props) (k : string) :
  NoDup (keys l) ->
  obj_get (fold_left (fun o kv => obj_set o (fst kv) (snd kv)) l acc) k
  = match obj_get l k with Some v => Some v | None => obj_get acc k end.
Proof.
  revert acc. induction l as [|[k0 v0] l IH]; simpl; intros acc Hnd;
    [reflexivity|].
  inversion Hnd as [|? ? Hnin Hnd']; subst.
  rewrite IH by exact Hnd'.
  destruct (k0 =? k) eqn:E.
  - apply String.eqb_eq in E. subst k0.
    apply obj_get_none in Hnin. rewrite Hnin. apply obj_get_set_same.
  - apply String.eqb_neq in E.
    destruct (obj_get l k); [reflexivity|].
    apply obj_get_set_other. congruence.
Qed.

Lemma spread_get (props : Props) (k : string) :
  NoDup (keys props) -> obj_get (spread props) k = obj_get props k.
Proof.
  intros Hnd. unfold spread, literal. rewrite literal_from_get by exact Hnd.
  now destruct (obj_get props k).
Qed.

Lemma spread_nodup (props : Props) : NoDup (keys (spread props)).
Proof.
  unfold spread, literal. apply literal_from_nodup. constructor.
Qed.

(** On keys that are not array indices, new properties go to the end. *)
Lemma obj_set_new (props : Props) (k : string) (v : Value) :
  ~ In k (keys props) -> is_array_index k = false ->
  obj_set props k v = (props ++ [(k, v)])%list.
Proof.
  intros Hnin Hidx. unfold obj_set, has_key.
  apply obj_get_none in Hnin. rewrite Hnin.
  unfold is_array_index in Hidx.
  destruct (array_index k); [discriminate | reflexivity].
Qed.

Lemma literal_from_plain (l acc : Props) :
  NoDup (keys acc ++ keys l) ->
  Forall (fun k => is_array_index k = false) (keys l) ->
  fold_left (fun o kv => obj_set o (fst kv) (snd kv)) l acc = (acc ++ l)%list.
Proof.
  revert acc. induction l as [|[k v] l IH]; simpl; intros acc Hnd Hidx.
  - now rewrite app_nil_r.
  - inversion Hidx as [|? ? Hk Hidx']; subst.
    rewrite obj_set_new.
    + rewrite IH; [now rewrite <- app_assoc | | exact Hidx'].
      unfold keys in *. rewrite map_app. simpl. rewrite <- app_assoc.
      exact Hnd.
    + intros Hin. apply NoDup_remove_2 in Hnd. apply Hnd.
      apply in_or_app. now left.
    + exact Hk.
Qed.

Lemma spread_plain (props : Props) :
  NoDup (keys props) ->
  Forall (fun k => is_array_index k = false) (keys props) ->
  spread props = props.
Proof.
  intros Hnd Hidx. unfold spread, literal.
  now rewrite literal_from_plain.
Qed.

(** ** [sortObjectByKeys] *)

Lemma sort_fold_get (obj : Props) (ks : list string) (result : Props)
    (k : string) :
  NoDup (keys result) ->
  let r :=
    fold_left
      (fun result key => obj_set (spread result) key (value_of obj key))
      ks result in
  NoDup (keys r)
  /\ obj_get r k
     = if existsb (String.eqb k) ks then Some (value_of obj k)
       else obj_get result k.
Proof.
  revert result. induction ks as [|k0 ks IH]; simpl; intros result Hnd.
  - split; [exact Hnd | reflexivity].
  - assert (Hnd' : NoDup (keys (obj_set (spread result) k0 (value_of obj k0))))
      by (apply keys_set_nodup, spread_nodup).
    destruct (IH _ Hnd') as [Hr Hget]. split; [exact Hr|].
    rewrite Hget. destruct (k =? k0) eqn:E; simpl.
    + apply String.eqb_eq in E. subst k0. rewrite obj_get_set_same.
      now destruct (existsb (String.eqb k) ks).
    + apply String.eqb_neq in E.
      rewrite obj_get_set_other by exact E.
      now rewrite spread_get by exact Hnd.
Qed.

Lemma sort_fold_plain (obj : Props) (ks : list string) (result : Props) :
  NoDup (keys result ++ ks) ->
  Forall (fun k => is_array_index k = false) ks ->
  Forall (fun k => is_array_index k = false) (keys result) ->
  fold_left
    (fun result key => obj_set (spread result) key (value_of obj key))
    ks result
  = (result ++ map (fun k => (k, value_of obj k)) ks)%list.
Proof.
  revert result. induction ks as [|k0 ks IH]; simpl; intros result Hnd Hks Hres.
  - now rewrite app_nil_r.
  - inversion Hks as [|? ? Hk0 Hks']; subst.
    assert (Hnd_res : NoDup (keys result))
      by (apply NoDup_app_remove_r in Hnd; exact Hnd).
    assert (Hnin : ~ In k0 (keys result)).
    { intros Hin. apply NoDup_remove_2 in Hnd. apply Hnd.
      apply in_or_app. now left. }
    rewrite spread_plain by assumption.
    rewrite obj_set_new by assumption.
    rewrite IH.
    + now rewrite <- app_assoc.
    + unfold keys in *. rewrite map_app. simpl. rewrite <- app_assoc.
      exact Hnd.
    + exact Hks'.
    + unfold keys in *. rewrite map_app. apply Forall_app. split; [exact Hres|].
      simpl. now constructor.
Qed.

Lemma existsb_eqb_in (k : string) (l : list string) :
  existsb (String.eqb k) l = true <-> In k l.
Proof.
  rewrite existsb_exists. split.
  - intros [x [Hin E]]. apply String.eqb_eq in E. now subst.
  - intros Hin. exists k. split; [exact Hin | apply String.eqb_refl].
Qed.

(** C9 (as amended): [sortObjectByKeys obj] has the properties of [obj],
    each with its value; when no key of [obj] is an array index, its keys
    are enumerated in lexicographic order; [{b: v1, a: v2}] gives the keys
    [a], [b] with their values. *)
Theorem sortObjectByKeys_spec :
  (forall (obj : Props) (k : string),
      obj_get (sortObjectByKeys obj) k = obj_get obj k)
  /\
  (forall obj : Props,
      NoDup (keys obj) ->
      Forall (fun k => is_array_index k = false) (keys obj) ->
      keys (sortObjectByKeys obj) = sort (keys obj)
      /\ Sorted lex_le (keys (sortObjectByKeys obj))
      /\ Permutation (keys (sortObjectByKeys obj)) (keys obj))
  /\
  (forall v1 v2 : Value,
      sortObjectByKeys [("b", v1); ("a", v2)] = [("a", v2); ("b", v1)]).
Proof.
  split; [|split].
  - intros obj k.
    destruct (sort_fold_get obj (sort (keys obj)) [] k (NoDup_nil _))
      as [_ Hget].
    unfold sortObjectByKeys. unfold value_of in Hget. simpl in Hget.
    rewrite Hget. clear Hget.
    destruct (existsb (String.eqb k) (sort (keys obj))) eqn:E.
    + apply existsb_eqb_in in E.
      apply (Permutation_in _ (sort_perm (keys obj))) in E.
      destruct (obj_get obj k) eqn:G; [reflexivity|].
      apply obj_get_none in G. contradiction.
    + symmetry. apply obj_get_none. intros Hin.
      apply (Permutation_in _ (Permutation_sym (sort_perm (keys obj)))) in Hin.
      apply existsb_eqb_in in Hin. congruence.
  - intros obj Hnd Hidx.
    assert (Hkeys : keys (sortObjectByKeys obj) = sort (keys obj)).
    { unfold sortObjectByKeys.
      change (keys (fold_left
                      (fun result key =>
                         obj_set (spread result) key (value_of obj key))
                      (sort (keys obj)) []) = sort (keys obj)).
      rewrite sort_fold_plain.
      - simpl. unfold keys. rewrite map_map. simpl. apply map_id.
      - simpl. eapply Permutation_NoDup; [|exact Hnd].
        symmetry. apply sort_perm.
      - eapply Permutation_Forall; [|exact Hidx].
        symmetry. apply sort_perm.
      - constructor. }
    rewrite Hkeys. split; [reflexivity|].
    split; [apply sort_sorted | apply sort_perm].
  - intros v1 v2. reflexivity.
Qed.

Lemma sortObjectByKeys_spec_witness :
  NoDup (keys [("zone.js", JString "0.10"); ("rxjs", JString "6.5");
               ("tslib", JString "2.0")])
  /\ Forall (fun k => is_array_index k = false) ["zone.js"; "rxjs"; "tslib"]
  /\ keys (sortObjectByKeys [("zone.js", JString "0.10");
                             ("rxjs", JString "6.5");
                             ("tslib", JString "2.0")])
     = ["rxjs"; "tslib"; "zone.js"].
Proof.
  assert (Hnd : NoDup (keys [("zone.js", JString "0.10");
                             ("rxjs", JString "6.5");
                             ("tslib", JString "2.0")])).
  { simpl. repeat constructor; simpl; intuition discriminate. }
  assert (Hidx : Forall (fun k => is_array_index k = false)
                   (keys [("zone.js", JString "0.10");
                          ("rxjs", JString "6.5");
                          ("tslib", JString "2.0")])).
  { simpl. repeat constructor. }
  split; [exact Hnd|]. split; [exact Hidx|].
  exact (proj1 (proj1 (proj2 sortObjectByKeys_spec) _ Hnd Hidx)).
Defined.

(** C9 as stated fails: the object [{"10": v, "9": w}] comes back with the
    key [9] before the key [10], which is not the lexicographic order. *)
Lemma sortObjectByKeys_array_indices :
  keys (sortObjectByKeys [("9", JNumber "2"); ("10", JNumber "1")])
  = ["9"; "10"]
  /\ ~ Sorted lex_le
       (keys (sortObjectByKeys [("9", JNumber "2"); ("10", JNumber "1")])).
Proof.
  split; [reflexivity|].
  intros Hs. vm_compute in Hs.
  inversion Hs as [|? ? _ Hhd]; subst.
  inversion Hhd as [|? ? Hle]; subst.
  discriminate Hle.
Qed.

(** ** Listing the files of a directory *)

Lemma slash_free_not_joined (f d r : string) :
  Str.none_of (fun c => (c =? "/")%char) f = true -> f <> d ++ "/" ++ r.
Proof.
  revert f. induction d as [|c d IH]; intros f Hf E; subst f; simpl in Hf.
  - discriminate Hf.
  - apply andb_prop in Hf. destruct Hf as [_ Hf]. now apply (IH _ Hf).
Qed.

Lemma joined_names_inj (a b x y : string) :
  Str.none_of (fun c => (c =? "/")%char) a = true ->
  Str.none_of (fun c => (c =? "/")%char) b = true ->
  a ++ "/" ++ x = b ++ "/" ++ y -> a = b /\ x = y.
Proof.
  revert b. induction a as [|c a IH]; intros [|c' b] Ha Hb E; simpl in *.
  - injection E as E. now split.
  - injection E as Ec _. subst c'. discriminate Hb.
  - injection E as Ec _. subst c. discriminate Ha.
  - injection E as Ec E. subst c'.
    apply andb_prop in Ha. apply andb_prop in Hb.
    destruct (IH b (proj2 Ha) (proj2 Hb) E) as [-> ->]. now split.
Qed.

Lemma plain_name_slash_free (name : string) :
  plain_name name = true ->
  name <> "" /\ Str.none_of (fun c => (c =? "/")%char) name = true.
Proof.
  unfold plain_name. intros H. apply andb_prop in H. destruct H as [Hne Hs].
  split; [|exact Hs]. intros ->. discriminate Hne.
Qed.

Lemma dir_prefix_child (path d : string) :
  plain_name d = true ->
  dir_prefix (child path d) = dir_prefix path ++ d ++ "/".
Proof.
  intros Hd. destruct (plain_name_slash_free _ Hd) as [Hne Hs].
  destruct d as [|c d]; [congruence|]. simpl in Hs.
  apply andb_prop in Hs. destruct Hs as [Hc _].
  apply negb_true_iff in Hc.
  unfold child, dir_prefix at 2 3.
  destruct (path =? "") eqn:E1.
  - simpl. unfold dir_prefix. simpl. rewrite Hc. reflexivity.
  - destruct (path =? "/") eqn:E2.
    + simpl. unfold dir_prefix. simpl. reflexivity.
    + destruct path as [|a path]; [discriminate E1|].
      unfold dir_prefix. simpl.
      destruct ((a =? "/")%char); [|now rewrite !append_assoc].
      destruct path as [|b path]; simpl; now rewrite ?append_assoc.
Qed.

Lemma all_files_rel_files (l : Listing) :
  forall path : string,
    names_ok l ->
    all_files path l = map (String.append (dir_prefix path)) (rel_files l).
Proof.
  induction l as [files dirs IHd] using Listing_induction.
  intros path [_ [_ [_ Hdirs]]]. simpl. rewrite map_app. f_equal.
  induction dirs as [|[d sub] dirs IHdirs]; simpl; [reflexivity|].
  simpl in Hdirs. destruct Hdirs as [Hd [Hsub Hrest]].
  inversion IHd as [|? ? Hhead Htail]; subst. simpl in Hhead.
  rewrite map_app, (IHdirs Htail Hrest). f_equal.
  rewrite (Hhead _ Hsub), (dir_prefix_child _ _ Hd), map_map.
  apply map_ext. intros r. now rewrite !append_assoc.
Qed.

Lemma rel_files_nodup (l : Listing) : names_ok l -> NoDup (rel_files l).
Proof.
  induction l as [files dirs IHd] using Listing_induction.
  intros [Hfiles [Hnames [Hplain Hdirs]]]. simpl.
  assert (Hsub :
    NoDup (flat_map
             (fun ds => map (fun r => fst ds ++ "/" ++ r) (rel_files (snd ds)))
             dirs)).
  { clear Hfiles Hplain.
    induction dirs as [|[d sub] dirs IHdirs]; simpl; [constructor|].
    simpl in Hdirs, Hnames. destruct Hdirs as [Hd [Hok Hrest]].
    inversion IHd as [|? ? Hhead Htail]; subst. simpl in Hhead.
    inversion Hnames as [|? ? Hnin Hnames']; subst.
    destruct (plain_name_slash_free _ Hd) as [_ Hds].
    apply NoDup_app.
    - apply Injective_map_NoDup; [|now apply Hhead].
      intros r r' E. apply append_inj_l in E. now injection E.
    - now apply IHdirs.
    - intros x Hx Hx'. apply in_map_iff in Hx. destruct Hx as [r [<- _]].
      apply in_flat_map in Hx'. destruct Hx' as [[d' sub'] [Hin Hx']].
      apply in_map_iff in Hx'. destruct Hx' as [r' [E _]]. simpl in E.
      assert (Hd' : plain_name d' = true).
      { clear - Hrest Hin. induction dirs as [|ds dirs IH]; [contradiction|].
        simpl in Hrest. destruct Hrest as [Hp [_ Hrest]].
        destruct Hin as [->|Hin]; [exact Hp | now apply IH]. }
      destruct (plain_name_slash_free _ Hd') as [_ Hds'].
      destruct (joined_names_inj _ _ _ _ Hds' Hds E) as [-> _].
      apply Hnin. apply in_map_iff. now exists (d, sub'). }
  apply NoDup_app; [exact Hfiles | exact Hsub |].
  intros f Hf Hx. apply in_flat_map in Hx. destruct Hx as [[d sub] [_ Hx]].
  apply in_map_iff in Hx. destruct Hx as [r [E _]]. simpl in E.
  rewrite Forall_forall in Hplain.
  destruct (plain_name_slash_free _ (Hplain _ Hf)) as [_ Hs].
  now apply (slash_free_not_joined f d r Hs).
Qed.

Lemma all_files_nodup (path : string) (l : Listing) :
  names_ok l -> NoDup (all_files path l).
Proof.
  intros Hok. rewrite all_files_rel_files by exact Hok.
  apply Injective_map_NoDup; [|now apply rel_files_nodup].
  intros a b E. now apply append_inj_l in E.
Qed.

Lemma all_files_under (l : Listing) :
  forall path x : string, In x (all_files path l) -> file_under path l x.
Proof.
  induction l as [files dirs IHd] using Listing_induction.
  intros path x Hin. simpl in Hin. apply in_app_or in Hin.
  destruct Hin as [Hin|Hin].
  - apply in_map_iff in Hin. destruct Hin as [f [<- Hf]].
    now apply file_here.
  - apply in_flat_map in Hin. destruct Hin as [[d sub] [Hds Hin]].
    rewrite Forall_forall in IHd.
    apply (@file_below path files dirs d sub x Hds).
    exact (IHd _ Hds _ _ Hin).
Qed.

Lemma under_all_files (path : string) (l : Listing) (x : string) :
  file_under path l x -> In x (all_files path l).
Proof.
  induction 1 as [path files dirs f Hf | path files dirs d sub x Hds _ IH];
    simpl; apply in_or_app.
  - left. now apply in_map.
  - right. apply in_flat_map. now exists (d, sub).
Qed.

Section Listing.

Context {SC : Schematics}.

Lemma forEach_push_files (path : string) (files acc : list string) :
  Forall (fun f => Path.join path f = Ok (child path f)) files ->
  forEach files
    (fun res p => q <- Path.join path p ;; Ok (res ++ [q])%list) acc
  = Ok (acc ++ map (child path) files)%list.
Proof.
  revert acc. induction files as [|f files IH]; simpl; intros acc Hj.
  - now rewrite app_nil_r.
  - inversion Hj as [|? ? Hf Hj']; subst. rewrite Hf. simpl.
    rewrite IH by exact Hj'. now rewrite <- app_assoc.
Qed.

Lemma allFiles_direct (host : Tree) (path : string) (l : Listing)
    (stack : nat) :
  listing_of host path l ->
  allFilesInDirInHost (S stack) host path false
  = Ok (map (child path) (files_of l)).
Proof.
  destruct l as [files dirs]. intros [Hf [_ [Hj _]]]. simpl.
  rewrite Hf, (forEach_push_files path files [] Hj). reflexivity.
Qed.

Lemma allFiles_recursive (host : Tree) :
  forall (stack : nat) (path : string) (l : Listing),
    listing_of host path l ->
    height l <= stack ->
    allFilesInDirInHost stack host path true = Ok (all_files path l).
Proof.
  induction stack as [|stack IH]; intros path [files dirs] Hl Hh.
  - simpl in Hh. lia.
  - simpl in Hl. destruct Hl as [Hf [Hd [Hj Hdirs]]].
    simpl in Hh. apply le_S_n in Hh. simpl.
    rewrite Hf, Hd, (forEach_push_files path files [] Hj). simpl.
    clear Hf Hd Hj.
    generalize (map (child path) files) as acc.
    induction dirs as [|[d sub] dirs IHdirs]; simpl; intros acc.
    + now rewrite app_nil_r.
    + simpl in Hdirs, Hh. destruct Hdirs as [Hjd [Hsub Hrest]].
      rewrite Hjd. simpl.
      rewrite (IH _ _ Hsub) by lia. simpl.
      rewrite IHdirs; [now rewrite <- app_assoc | exact Hrest | lia].
Qed.

(** C8: for a directory whose listing is [l], the non-recursive call
    returns the full paths of the files of the directory itself and nothing
    else; the recursive call, given room for the nesting of [l], returns
    the full paths of the files of the directory followed by those of every
    subdirectory, recursively: a path is in the result exactly when it is
    that of a file of the directory or below, and no path is in it twice. *)
Theorem allFilesInDirInHost_spec (host : Tree) (path : string) (l : Listing) :
  listing_of host path l ->
  (forall stack : nat,
      allFilesInDirInHost (S stack) host path false
      = Ok (map (child path) (files_of l)))
  /\ (forall stack : nat,
         height l <= stack ->
         allFilesInDirInHost stack host path true = Ok (all_files path l))
  /\ (forall x : string, In x (all_files path l) <-> file_under path l x)
  /\ (names_ok l -> NoDup (all_files path l)).
Proof.
  intros Hl. split; [|split; [|split]].
  - intros stack. now apply allFiles_direct.
  - intros stack Hh. now apply allFiles_recursive.
  - intros x. split; [apply all_files_under | apply under_all_files].
  - apply all_files_nodup.
Qed.

End Listing.

Lemma allFilesInDirInHost_spec_witness :
  @listing_of Reference.tree Sample.source_tree "src" source_listing
  /\ names_ok source_listing
  /\ @allFilesInDirInHost Reference.tree 1 Sample.source_tree "src" false
     = Ok ["src/main.ts"]
  /\ @allFilesInDirInHost Reference.tree 3 Sample.source_tree "src" true
     = Ok ["src/main.ts"; "src/app/app.component.ts";
           "src/app/app.component.html"; "src/app/shared/util.ts"]
  /\ NoDup ["src/main.ts"; "src/app/app.component.ts";
            "src/app/app.component.html"; "src/app/shared/util.ts"]
  /\ file_under "src" source_listing "src/app/shared/util.ts".
Proof.
  assert (Hl : @listing_of Reference.tree Sample.source_tree "src"
                 source_listing).
  { simpl. repeat split; repeat constructor. }
  assert (Hok : names_ok source_listing).
  { simpl. repeat split; repeat constructor; simpl; intuition discriminate. }
  destruct (@allFilesInDirInHost_spec Reference.tree Sample.source_tree "src"
              source_listing Hl)
    as [Hdirect [Hrec [Hunder Hnodup]]].
  split; [exact Hl|]. split; [exact Hok|].
  split; [exact (Hdirect 0)|].
  split; [exact (Hrec 3 (le_n 3))|].
  split; [exact (Hnodup Hok)|].
  apply Hunder. simpl. tauto.
Defined.

(* ================================================================== *)
(** * Further properties *)

(** ** [offsetFromRoot] and the slashes of the normalized path *)

Lemma split_by_length (p : ascii -> bool) (s : string) :
  List.length (Str.split_by p s) = S (count_units p s).
Proof.
  induction s as [|c s IH]; simpl; [reflexivity|].
  destruct (p c); simpl; [now rewrite IH|].
  destruct (Str.split_by p s) as [|w ws]; simpl in *; [discriminate IH|].
  exact IH.
Qed.

Ltac split_if H :=
  match type of H with
  | (if ?c then _ else _) = _ => destruct c
  end.

Lemma normalize_loop_throws (original : string) (relative : bool)
    (rest done : list string) (e : exn) :
  Path.normalize_loop original relative done rest = Throw e ->
  e = InvalidPathException original.
Proof.
  revert done. induction rest as [|cur rest IH]; simpl; intros done H.
  - discriminate H.
  - split_if H; [now apply (IH done)|].
    split_if H; [split_if H; [|split_if H] | split_if H];
      try (now apply (IH _ H)).
    injection H as <-. reflexivity.
Qed.

Lemma normalize_throws (path : string) (e : exn) :
  Path.normalize path = Throw e -> e = InvalidPathException path.
Proof.
  unfold Path.normalize.
  destruct ((path =? "") || (path =? ".")); [discriminate|].
  destruct (path =? "/"); [discriminate|].
  destruct (hd "" (Str.split_by Path.is_sep
                     match Path.windows_drive path with
                     | Some (d, rest) => "\" ++ String d "" ++ "\" ++ rest
                     | None => path
                     end) =? "");
    (match goal with
     | |- bind ?m _ = _ -> _ => destruct m as [p|e'] eqn:E
     end; simpl;
     [destruct p as [|p0 [|p1 p]]; discriminate
     | intros H; injection H as <-; now apply normalize_loop_throws in E]).
Qed.

(** X1: [offsetFromRoot] writes one [../] more than the normalized path has
    slashes, so its result is never empty; it fails exactly when [normalize]
    rejects the path, with the [InvalidPathException] of that path. *)
Theorem offsetFromRoot_counts_slashes (p : string) :
  match Path.normalize p with
  | Ok n =>
      offsetFromRoot p
      = Ok ("../" ++ Str.times (count_units (fun c => (c =? "/")%char) n) "../")
  | Throw e =>
      offsetFromRoot p = Throw e /\ e = InvalidPathException p
  end.
Proof.
  destruct (Path.normalize p) as [n|e] eqn:E.
  - unfold offsetFromRoot. rewrite E. simpl. rewrite offset_loop.
    unfold Str.split_slash. now rewrite split_by_length.
  - split; [unfold offsetFromRoot; now rewrite E|].
    now apply normalize_throws.
Qed.

(** ** Projects of the workspace *)

Section Workspace.

Context {RT : Runtime} {SC : Schematics}.


(** X3: the rule of [updateJsonInTree] writes nothing when a step before
    the write fails: the exception of the callback, on a new file and on an
    existing one, is the outcome of the rule, and an existing file that does
    not parse gives the parse error, whatever the callback. *)
Theorem updateJsonInTree_failures (path : string)
    (callback : Value -> SchematicContext -> result Value)
    (host : Tree) (context : SchematicContext) :
  (forall e,
      tree_exists host path = false ->
      callback (JObject []) context = Throw e ->
      updateJsonInTree path callback host context = Throw e)
  /\
  (forall text message,
      tree_exists host path = true ->
      tree_read host path = Some text ->
      JSON_parse (stripJsonComments text) = inr message ->
      updateJsonInTree path callback host context
      = Throw (Error ("Cannot parse " ++ path ++ ": " ++ message)))
  /\
  (forall text current e,
      tree_exists host path = true ->
      tree_read host path = Some text ->
      JSON_parse (stripJsonComments text) = inl current ->
      callback current context = Throw e ->
      updateJsonInTree path callback host context = Throw e).
Proof.
  unfold updateJsonInTree, readJsonInTree. repeat split.
  - intros e Hex Hcb. rewrite Hex. simpl. now rewrite Hcb.
  - intros text message Hex Hread Hparse. rewrite Hex, Hread. simpl.
    now rewrite Hparse.
  - intros text current e Hex Hread Hparse Hcb. rewrite Hex, Hread. simpl.
    rewrite Hparse. simpl. now rewrite Hcb.
Qed.

(** X4: two updates of a new file compose.  When the tree keeps what
    [create] stored and the parser reads back what [JSON.stringify] wrote,
    the first rule creates the file, [readJsonInTree] then returns what the
    first callback returned, and the second rule overwrites the file with
    what the second callback makes of that value. *)
Theorem updateJsonInTree_then_update (path : string)
    (first second : Value -> SchematicContext -> result Value)
    (host host' : Tree) (context : SchematicContext) (json json' : Value) :
  tree_exists host path = false ->
  first (JObject []) context = Ok json ->
  tree_create host path (serializeJson json) = Ok host' ->
  tree_exists host' path = true ->
  tree_read host' path = Some (serializeJson json) ->
  JSON_parse (stripJsonComments (serializeJson json)) = inl json ->
  second json context = Ok json' ->
  updateJsonInTree path first host context = Ok host'
  /\ readJsonInTree host' path = Ok json
  /\ updateJsonInTree path second host' context
     = tree_overwrite host' path (serializeJson json').
Proof.
  intros Hnew Hfirst Hcreate Hex Hread Hparse Hsecond.
  assert (Hback : readJsonInTree host' path = Ok json).
  { unfold readJsonInTree. rewrite Hex, Hread. simpl. now rewrite Hparse. }
  unfold updateJsonInTree. rewrite Hnew, Hex. simpl.
  rewrite Hfirst, Hback. simpl. rewrite Hsecond. simpl.
  now repeat split.
Qed.

(** X5: the rule of [updateWorkspaceInTree] never creates the workspace
    file: when the tree has none of the three candidates (and no file for
    [undefined]), it fails with the not-found error, whatever the callback,
    which it does not call. *)
Theorem updateWorkspaceInTree_needs_workspace
    (callback : Value -> SchematicContext -> Tree -> result Value)
    (host : Tree) (context : SchematicContext) :
  tree_exists host "/workspace.json" = false ->
  tree_exists host "/angular.json" = false ->
  tree_exists host "/.angular.json" = false ->
  tree_exists host undefined_path = false ->
  updateWorkspaceInTree callback host context
  = Throw (Error "Cannot find undefined").
Proof.
  intros H1 H2 H3 Hu.
  unfold updateWorkspaceInTree, getWorkspacePath, possibleFiles. simpl.
  rewrite H1, H2, H3. simpl. unfold readJsonInTree.
  unfold undefined_path in Hu. now rewrite Hu.
Qed.

End Workspace.

(** ** Adding the lint target, as a function of the document *)

Lemma obj_replace_same (props : Props) (k : string) (v : Value) :
  obj_get props k = Some v -> obj_replace props k v = props.
Proof.
  induction props as [|[k0 v0] rest IH]; simpl; [reflexivity|].
  destruct (k0 =? k) eqn:E.
  - apply String.eqb_eq in E. intros H. injection H as ->. now subst.
  - intros H. now rewrite IH.
Qed.

Lemma obj_replace_replace (props : Props) (k : string) (v1 v2 : Value) :
  obj_replace (obj_replace props k v1) k v2 = obj_replace props k v2.
Proof.
  induction props as [|[k0 v0] rest IH]; simpl; [reflexivity|].
  destruct (k0 =? k) eqn:E; simpl.
  - now rewrite String.eqb_refl.
  - now rewrite E, IH.
Qed.

Lemma obj_set_again (props : Props) (k : string) (v : Value) :
  obj_set (obj_set props k v) k v = obj_set props k v.
Proof.
  unfold obj_set at 1.
  rewrite (has_key_get _ _ _ (obj_get_set_same props k v)).
  apply obj_replace_same, obj_get_set_same.
Qed.

Lemma addESLintTarget_with_target (name : string) (target : TargetName)
    (ws : Value) (projects project architect : Props) :
  get_member ws "projects" = Ok (JObject projects) ->
  obj_get projects name = Some (JObject project) ->
  obj_get project "architect" = Some (JObject architect) ->
  exists wsprops,
    ws = JObject wsprops
    /\ obj_get wsprops "projects" = Some (JObject projects)
    /\ addESLintTarget name target ws
       = Ok (with_target name target wsprops projects project architect).
Proof.
  intros Hprojects Hname Harch.
  destruct (projects_of_object _ _ Hprojects) as [wsprops [-> Hp]].
  exists wsprops. split; [reflexivity|]. split; [exact Hp|].
  now apply addESLintTarget_result.
Qed.

Lemma with_target_select (name : string) (target : TargetName)
    (wsprops projects project architect : Props) (rest : list string) :
  obj_get wsprops "projects" = Some (JObject projects) ->
  obj_get projects name = Some (JObject project) ->
  obj_get project "architect" = Some (JObject architect) ->
  select (with_target name target wsprops projects project architect)
    ("projects" :: name :: "architect" :: rest)
  = select (JObject (obj_set architect (TargetName_text target)
                       (eslintTargetConfig (lint_root project)))) rest.
Proof.
  intros Hp Hn Ha. unfold with_target.
  rewrite select_replace_same by exact (has_key_get _ _ _ Hp).
  rewrite select_replace_same by exact (has_key_get _ _ _ Hn).
  now rewrite select_replace_same by exact (has_key_get _ _ _ Ha).
Qed.

(** The shape of a document is kept: the project is where it was, with the
    root it had and with the [architect] that holds the target. *)
Lemma with_target_shape (name : string) (target : TargetName)
    (wsprops projects project architect : Props) :
  obj_get wsprops "projects" = Some (JObject projects) ->
  obj_get projects name = Some (JObject project) ->
  obj_get project "architect" = Some (JObject architect) ->
  let architect' :=
    obj_set architect (TargetName_text target)
      (eslintTargetConfig (lint_root project)) in
  let project' := obj_replace project "architect" (JObject architect') in
  let projects' := obj_replace projects name (JObject project') in
  get_member (with_target name target wsprops projects project architect)
    "projects" = Ok (JObject projects')
  /\ obj_get projects' name = Some (JObject project')
  /\ obj_get project' "architect" = Some (JObject architect')
  /\ lint_root project' = lint_root project
  /\ with_target name target wsprops projects project architect
     = JObject (obj_replace wsprops "projects" (JObject projects')).
Proof.
  intros Hp Hn Ha. simpl. repeat split.
  - unfold with_target. simpl.
    now rewrite obj_get_replace_same by exact (has_key_get _ _ _ Hp).
  - now rewrite obj_get_replace_same by exact (has_key_get _ _ _ Hn).
  - now rewrite obj_get_replace_same by exact (has_key_get _ _ _ Ha).
  - unfold lint_root. rewrite obj_get_replace_other; [reflexivity|].
    discriminate.
Qed.

(** X6: adding a lint target is idempotent: on the document that
    [addESLintTarget] returned, the same call returns that document. *)
Theorem addESLintTarget_idempotent (name : string) (target : TargetName)
    (ws : Value) (projects project architect : Props) :
  get_member ws "projects" = Ok (JObject projects) ->
  obj_get projects name = Some (JObject project) ->
  obj_get project "architect" = Some (JObject architect) ->
  exists ws' : Value,
    addESLintTarget name target ws = Ok ws'
    /\ addESLintTarget name target ws' = Ok ws'.
Proof.
  intros Hprojects Hname Harch.
  destruct (addESLintTarget_with_target name target ws _ _ _
              Hprojects Hname Harch) as [wsprops [-> [Hp Hres]]].
  eexists. split; [exact Hres|].
  destruct (with_target_shape name target _ _ _ _ Hp Hname Harch)
    as [Hp' [Hn' [Ha' [Hroot Heq]]]].
  destruct (addESLintTarget_with_target name target _ _ _ _ Hp' Hn' Ha')
    as [wsprops' [Hw [_ Hres']]].
  rewrite Hres'. f_equal. rewrite Heq in Hw. injection Hw as <-.
  unfold with_target. rewrite Hroot.
  rewrite obj_set_again, !obj_replace_replace. reflexivity.
Qed.

(** X7: [addESLintTarget] serves both target names side by side: after
    [eslint] and then [lint] the project holds the generated target under
    both names. *)
Theorem addESLintTarget_both (name : string) (ws : Value)
    (projects project architect : Props) :
  get_member ws "projects" = Ok (JObject projects) ->
  obj_get projects name = Some (JObject project) ->
  obj_get project "architect" = Some (JObject architect) ->
  exists ws1 ws2 : Value,
    addESLintTarget name eslint ws = Ok ws1
    /\ addESLintTarget name lint ws1 = Ok ws2
    /\ select ws2 (target_place name eslint)
       = Ok (eslintTargetConfig (lint_root project))
    /\ select ws2 (target_place name lint)
       = Ok (eslintTargetConfig (lint_root project)).
Proof.
  intros Hprojects Hname Harch.
  destruct (addESLintTarget_with_target name eslint ws _ _ _
              Hprojects Hname Harch) as [wsprops [-> [Hp Hres]]].
  destruct (with_target_shape name eslint _ _ _ _ Hp Hname Harch)
    as [Hp' [Hn' [Ha' [Hroot Heq]]]].
  destruct (addESLintTarget_with_target name lint _ _ _ _ Hp' Hn' Ha')
    as [wsprops' [Hw [Hp2 Hres']]].
  eexists. eexists. split; [exact Hres|]. split; [exact Hres'|].
  unfold target_place.
  rewrite !(with_target_select name lint _ _ _ _ _ Hp2 Hn' Ha').
  cbn [select bind get_member]. rewrite Hroot.
  rewrite obj_get_set_same.
  rewrite obj_get_set_other by discriminate.
  now rewrite obj_get_set_same.
Qed.

(** X8: the root of the patterns is the project's root converted to a
    string, whatever its type; for a project without a [root] the patterns
    begin with [undefined]. *)
Theorem addESLintTarget_any_root (name : string) (target : TargetName)
    (ws : Value) (projects project architect : Props) :
  get_member ws "projects" = Ok (JObject projects) ->
  obj_get projects name = Some (JObject project) ->
  obj_get project "architect" = Some (JObject architect) ->
  exists ws' : Value,
    addESLintTarget name target ws = Ok ws'
    /\ select ws' (target_place name target)
       = Ok (lint_target (ToString (lint_root project)))
    /\ (obj_get project "root" = None ->
        select ws' (target_place name target) = Ok (lint_target "undefined")).
Proof.
  intros Hprojects Hname Harch.
  destruct (addESLintTarget_with_target name target ws _ _ _
              Hprojects Hname Harch) as [wsprops [-> [Hp Hres]]].
  eexists. split; [exact Hres|].
  unfold target_place.
  rewrite (with_target_select name target _ _ _ _ _ Hp Hname Harch). simpl.
  rewrite obj_get_set_same. split; [reflexivity|].
  intros Hroot. unfold lint_root. now rewrite Hroot.
Qed.


(** ** [sortObjectByKeys] as a normal form *)

Lemma lex_le_trans (a b c : string) : lex_le a b -> lex_le b c -> lex_le a c.
Proof.
  unfold lex_le, String.leb. revert b c.
  induction a as [|x a IH]; intros [|y b] [|z c]; simpl;
    try reflexivity; try discriminate.
  unfold Ascii.compare.
  destruct (N.compare_spec (N_of_ascii x) (N_of_ascii y)) as [E1|L1|G1];
    destruct (N.compare_spec (N_of_ascii y) (N_of_ascii z)) as [E2|L2|G2];
    destruct (N.compare_spec (N_of_ascii x) (N_of_ascii z)) as [E3|L3|G3];
    try reflexivity; try discriminate; try lia.
  apply IH.
Qed.

Lemma lex_sorted_strongly (l : list string) :
  Sorted lex_le l -> StronglySorted lex_le l.
Proof.
  apply Sorted_StronglySorted. intros a b c. apply lex_le_trans.
Qed.

(** Two sorted lists with the same elements are the same list. *)
Lemma sorted_perm_eq (l1 l2 : list string) :
  Sorted lex_le l1 -> Sorted lex_le l2 -> Permutation l1 l2 -> l1 = l2.
Proof.
  revert l2. induction l1 as [|x l1 IH]; intros l2 S1 S2 P.
  - apply Permutation_nil in P. now subst.
  - destruct l2 as [|y l2];
      [apply Permutation_sym, Permutation_nil in P; discriminate|].
    pose proof (lex_sorted_strongly _ S1) as T1.
    pose proof (lex_sorted_strongly _ S2) as T2.
    inversion T1 as [|? ? _ F1]; subst. inversion T2 as [|? ? _ F2]; subst.
    rewrite Forall_forall in F1, F2.
    assert (Hxy : x = y).
    { assert (Hx : In x (y :: l2))
        by (apply (Permutation_in _ P); now left).
      assert (Hy : In y (x :: l1))
        by (apply (Permutation_in _ (Permutation_sym P)); now left).
      destruct Hx as [->|Hx]; [reflexivity|].
      destruct Hy as [->|Hy]; [reflexivity|].
      apply String.leb_antisym; [exact (F1 _ Hy) | exact (F2 _ Hx)]. }
    subst y. f_equal. apply IH.
    + now inversion S1.
    + now inversion S2.
    + now apply Permutation_cons_inv in P.
Qed.

Lemma sort_of_sorted (l : list string) : Sorted lex_le l -> sort l = l.
Proof.
  intros S. apply sorted_perm_eq; [apply sort_sorted | exact S | apply sort_perm].
Qed.

Lemma sortObjectByKeys_plain (obj : Props) :
  NoDup (keys obj) ->
  Forall (fun k => is_array_index k = false) (keys obj) ->
  sortObjectByKeys obj = map (fun k => (k, value_of obj k)) (sort (keys obj)).
Proof.
  intros Hnd Hidx. unfold sortObjectByKeys.
  change (fold_left
            (fun result key => obj_set (spread result) key (value_of obj key))
            (sort (keys obj)) []
          = map (fun k => (k, value_of obj k)) (sort (keys obj))).
  rewrite sort_fold_plain; [reflexivity | | | constructor].
  - simpl. eapply Permutation_NoDup; [|exact Hnd]. symmetry. apply sort_perm.
  - eapply Permutation_Forall; [|exact Hidx]. symmetry. apply sort_perm.
Qed.

Lemma obj_get_in (obj : Props) (k : string) (v : Value) :
  NoDup (keys obj) -> In (k, v) obj -> obj_get obj k = Some v.
Proof.
  unfold keys. induction obj as [|[k0 v0] rest IH]; simpl; intros Hnd Hin;
    [contradiction|].
  inversion Hnd as [|? ? Hnin Hnd']; subst.
  destruct Hin as [E|Hin].
  - injection E as -> ->. now rewrite String.eqb_refl.
  - destruct (k0 =? k) eqn:E; [|now apply IH].
    apply String.eqb_eq in E. subst k0. exfalso. apply Hnin.
    apply in_map_iff. now exists (k, v).
Qed.

Lemma obj_get_tabulate (f : string -> Value) (ks : list string) (k : string) :
  In k ks -> obj_get (map (fun k => (k, f k)) ks) k = Some (f k).
Proof.
  induction ks as [|k0 ks IH]; simpl; [contradiction|].
  destruct (k0 =? k) eqn:E.
  - apply String.eqb_eq in E. now subst.
  - apply String.eqb_neq in E. intros [H|H]; [contradiction | now apply IH].
Qed.

(** X10: on an object without array-index keys, [sortObjectByKeys] is
    idempotent: sorting the sorted object gives the sorted object. *)
Theorem sortObjectByKeys_idempotent (obj : Props) :
  NoDup (keys obj) ->
  Forall (fun k => is_array_index k = false) (keys obj) ->
  sortObjectByKeys (sortObjectByKeys obj) = sortObjectByKeys obj.
Proof.
  intros Hnd Hidx.
  assert (Hperm : Permutation (sort (keys obj)) (keys obj))
    by apply sort_perm.
  rewrite (sortObjectByKeys_plain obj Hnd Hidx).
  set (ks := sort (keys obj)) in *.
  assert (Hkeys : keys (map (fun k => (k, value_of obj k)) ks) = ks).
  { unfold keys. rewrite map_map. simpl. apply map_id. }
  rewrite sortObjectByKeys_plain; rewrite Hkeys.
  - rewrite (sort_of_sorted ks) by apply sort_sorted.
    apply map_ext_in. intros k Hk. f_equal. unfold value_of at 1.
    now rewrite obj_get_tabulate.
  - eapply Permutation_NoDup; [|exact Hnd]. now symmetry.
  - eapply Permutation_Forall; [|exact Hidx]. now symmetry.
Qed.

(** X11: on objects without array-index keys, the result of
    [sortObjectByKeys] does not depend on the order in which the object
    lists its properties. *)
Theorem sortObjectByKeys_order_independent (obj1 obj2 : Props) :
  Permutation obj1 obj2 ->
  NoDup (keys obj1) ->
  Forall (fun k => is_array_index k = false) (keys obj1) ->
  sortObjectByKeys obj1 = sortObjectByKeys obj2.
Proof.
  intros P Hnd Hidx.
  assert (Pk : Permutation (keys obj1) (keys obj2))
    by (unfold keys; now apply Permutation_map).
  assert (Hnd2 : NoDup (keys obj2)) by (eapply Permutation_NoDup; eassumption).
  assert (Hidx2 : Forall (fun k => is_array_index k = false) (keys obj2))
    by (eapply Permutation_Forall; eassumption).
  rewrite (sortObjectByKeys_plain obj1 Hnd Hidx),
          (sortObjectByKeys_plain obj2 Hnd2 Hidx2).
  assert (Hsort : sort (keys obj1) = sort (keys obj2)).
  { apply sorted_perm_eq; try apply sort_sorted.
    rewrite (sort_perm (keys obj1)), Pk. symmetry. apply sort_perm. }
  rewrite Hsort. apply map_ext. intros k. f_equal. unfold value_of.
  destruct (obj_get obj1 k) as [v|] eqn:G1.
  - assert (Hin : In (k, v) obj1).
    { clear - G1. induction obj1 as [|[k0 v0] rest IH]; simpl in *;
        [discriminate|].
      destruct (k0 =? k) eqn:E; [|right; now apply IH].
      apply String.eqb_eq in E. injection G1 as ->. subst. now left. }
    now rewrite (obj_get_in obj2 k v Hnd2 (Permutation_in _ P Hin)).
  - apply obj_get_none in G1.
    assert (G2 : obj_get obj2 k = None).
    { apply obj_get_none. intros Hin. apply G1.
      exact (Permutation_in _ (Permutation_sym Pk) Hin). }
    now rewrite G2.
Qed.

(** ** The shape of a file listing *)

Lemma dir_prefix_extends (path d : string) :
  exists r : string, dir_prefix (child path d) = dir_prefix path ++ r.
Proof.
  unfold child. set (pre := dir_prefix path).
  unfold dir_prefix at 1.
  destruct (pre ++ d =? "") eqn:E1.
  - apply String.eqb_eq in E1. exists "".
    destruct pre; [reflexivity | discriminate E1].
  - destruct (pre ++ d =? "/") eqn:E2.
    + apply String.eqb_eq in E2. exists d. now rewrite E2.
    + exists (d ++ "/"). now rewrite append_assoc.
Qed.

Lemma all_files_prefixed (l : Listing) :
  forall path x : string,
    In x (all_files path l) -> exists rest, x = dir_prefix path ++ rest.
Proof.
  induction l as [files dirs IHd] using Listing_induction.
  intros path x Hin. simpl in Hin. apply in_app_or in Hin.
  destruct Hin as [Hin|Hin].
  - apply in_map_iff in Hin. destruct Hin as [f [<- _]]. now exists f.
  - apply in_flat_map in Hin. destruct Hin as [[d sub] [Hds Hin]].
    rewrite Forall_forall in IHd.
    destruct (IHd _ Hds _ _ Hin) as [rest ->].
    destruct (dir_prefix_extends path d) as [r Hr]. simpl. rewrite Hr.
    exists (r ++ rest). now rewrite append_assoc.
Qed.

Lemma all_files_count (l : Listing) :
  forall path : string, List.length (all_files path l) = count_files l.
Proof.
  induction l as [files dirs IHd] using Listing_induction.
  intros path. simpl. rewrite length_app, length_map. f_equal.
  induction dirs as [|[d sub] dirs IHdirs]; simpl; [reflexivity|].
  inversion IHd as [|? ? Hhead Htail]; subst. simpl in Hhead.
  now rewrite length_app, Hhead, (IHdirs Htail).
Qed.

Section ListingShape.

Context {SC : Schematics}.

(** X12: the recursive listing begins with the non-recursive one: the files
    of the directory itself come first, those of the subdirectories follow;
    it has one path per file of the listing, and every path begins with the
    path of the directory. *)
Theorem allFilesInDirInHost_shape (host : Tree) (path : string) (l : Listing)
    (stack : nat) :
  listing_of host path l ->
  height l <= stack ->
  exists direct below : list string,
    allFilesInDirInHost stack host path false = Ok direct
    /\ allFilesInDirInHost stack host path true = Ok (direct ++ below)%list
    /\ List.length (direct ++ below)%list = count_files l
    /\ forall x : string,
         In x (direct ++ below)%list ->
         exists rest : string, x = dir_prefix path ++ rest.
Proof.
  intros Hl Hh.
  pose proof (allFiles_recursive host stack path l Hl Hh) as Hrec.
  destruct stack as [|stack]; [destruct l; simpl in Hh; lia|].
  pose proof (allFiles_direct host path l stack Hl) as Hdir.
  destruct l as [files dirs]. simpl in Hdir, Hrec.
  eexists. eexists. split; [exact Hdir|]. split; [exact Hrec|].
  split.
  - exact (all_files_count (Dir files dirs) path).
  - intros x. exact (all_files_prefixed (Dir files dirs) path x).
Qed.

End ListingShape.

(** ** The configuration of a project, for every prefix *)

(** X13: [createProjectESLintConfig] writes the two selector rules for every
    prefix, the empty one too, and leaves the rules of the [*.html] override
    empty; it fails only when the root path is rejected by [normalize], with
    the [InvalidPathException] of that path. *)
Theorem createProjectESLintConfig_always_rules
    (rootPath projectRoot : string) (projectType : ProjectType)
    (prefix : string) :
  match offsetFromRoot rootPath with
  | Ok _ =>
      exists config : Value,
        createProjectESLintConfig rootPath projectRoot projectType prefix
        = Ok config
        /\ select config ts_rules
           = Ok (JObject
                   [("@angular-eslint/directive-selector",
                     selector_rule "attribute" prefix "camelCase");
                    ("@angular-eslint/component-selector",
                     selector_rule "element" prefix "kebab-case")])
        /\ select config ["overrides"; "1"; "rules"] = Ok (JObject [])
  | Throw e =>
      createProjectESLintConfig rootPath projectRoot projectType prefix
      = Throw e
      /\ e = InvalidPathException rootPath
  end.
Proof.
  unfold createProjectESLintConfig.
  destruct (offsetFromRoot rootPath) as [offset|e] eqn:E; simpl bind.
  - eexists. split; [reflexivity|]. split; reflexivity.
  - split; [reflexivity|]. unfold offsetFromRoot in E.
    destruct (Path.normalize rootPath) as [n|e'] eqn:En; [discriminate|].
    simpl in E. injection E as <-. now apply normalize_throws.
Qed.

(** ** The rules that read [angular.json] *)

(** On values of the declared types the builders for values of any type
    are the builders of the declared types. *)
Lemma createProjectESLintConfig_dyn_typed (rootPath projectRoot : string)
    (projectType : ProjectType) (prefix : string) :
  createProjectESLintConfig_dyn rootPath (JString projectRoot)
    (JString (ProjectType_text projectType)) (JString prefix)
  = createProjectESLintConfig rootPath projectRoot projectType prefix.
Proof. destruct projectType; reflexivity. Qed.

Lemma createRootESLintConfig_dyn_typed :
  createRootESLintConfig_dyn JNull = createRootESLintConfig None
  /\ createRootESLintConfig_dyn JUndefined = createRootESLintConfig None
  /\ forall p : string,
       createRootESLintConfig_dyn (JString p) = createRootESLintConfig (Some p).
Proof. repeat split. Qed.

Section RulesProperties.

Context {RT : Runtime} {SC : Schematics} {TM : TreeMore}.

Lemma reads_project_run (tree : Tree) (name : string) (project : Props)
    (A : Type) (k : Value -> result A) :
  reads_project tree name project ->
  (angularJSON <- readJsonInTree tree "angular.json" ;;
   projects <- get_member angularJSON "projects" ;;
   config <- get_member projects name ;;
   k config)
  = k (JObject project).
Proof.
  intros [text [ws [projects [Hex [Hread [Hparse [Hp Hn]]]]]]].
  unfold readJsonInTree. rewrite Hex, Hread. simpl. rewrite Hparse. simpl.
  rewrite Hp. simpl. now rewrite Hn.
Qed.

(** X14: the three rules that read the project out of [angular.json] look
    at that path only: when the tree has no [angular.json] they fail with
    the not-found error of that path, whichever other workspace file the
    tree has. *)
Theorem angular_json_only (tree : Tree) (name : string) (stack : nat) :
  tree_exists tree "angular.json" = false ->
  getAllSourceFilesForProject stack tree name
  = Throw (Error "Cannot find angular.json")
  /\ createESLintConfigForProject name tree
     = Throw (Error "Cannot find angular.json")
  /\ removeTSLintJSONForProject name tree
     = Throw (Error "Cannot find angular.json").
Proof.
  intros Hex.
  unfold getAllSourceFilesForProject, createESLintConfigForProject,
    removeTSLintJSONForProject, readJsonInTree.
  rewrite Hex. now repeat split.
Qed.

(** X15: for the project at the root of the workspace (empty root)
    [getAllSourceFilesForProject] lists [src], for any other project the
    normalized root; with the listing of that directory it returns all its
    files. *)
Theorem getAllSourceFilesForProject_spec (tree : Tree) (name : string)
    (project : Props) (root : string) (stack : nat) :
  reads_project tree name project ->
  obj_get project "root" = Some (JString root) ->
  (root = "" ->
   getAllSourceFilesForProject stack tree name
   = allFilesInDirInHost stack tree "src" true)
  /\
  (forall dir : string,
      root <> "" ->
      Path.normalize root = Ok dir ->
      getAllSourceFilesForProject stack tree name
      = allFilesInDirInHost stack tree dir true)
  /\
  (forall l : Listing,
      root = "" ->
      listing_of tree "src" l ->
      height l <= stack ->
      getAllSourceFilesForProject stack tree name = Ok (all_files "src" l)).
Proof.
  intros Hproj Hroot.
  assert (Hrun : getAllSourceFilesForProject stack tree name
                 = (path <- normalize_dyn
                              (if root =? "" then JString "src"
                               else JString root) ;;
                    allFilesInDirInHost stack tree path true)).
  { unfold getAllSourceFilesForProject.
    rewrite (reads_project_run tree name project _ _ Hproj). simpl.
    now rewrite Hroot. }
  split; [|split].
  - intros ->. now rewrite Hrun.
  - intros dir Hne Hdir. rewrite Hrun.
    apply String.eqb_neq in Hne. rewrite Hne. simpl. now rewrite Hdir.
  - intros l -> Hl Hh. rewrite Hrun. simpl.
    now apply allFiles_recursive.
Qed.

(** X16: [createESLintConfigForProject] does nothing for the project at the
    root of the workspace: the tree is as it was and no rule is returned.
    For a project with another root it returns the rule of
    [updateJsonInTree] for [.eslintrc.json] in the normalized root, whose
    callback builds the configuration of the project from the path of the
    root of the tree, not from the root of the project. *)
Theorem createESLintConfigForProject_spec (tree : Tree) (name : string)
    (project : Props) (root : string) :
  reads_project tree name project ->
  obj_get project "root" = Some (JString root) ->
  (root = "" -> createESLintConfigForProject name tree = Ok (tree, None))
  /\
  (forall dir path : string,
      root <> "" ->
      Path.normalize root = Ok dir ->
      Path.join dir ".eslintrc.json" = Ok path ->
      createESLintConfigForProject name tree
      = Ok (tree,
            Some (updateJsonInTree path
                    (fun _ _ =>
                       createProjectESLintConfig_dyn (tree_root_path tree)
                         (JString root)
                         (value_of project "projectType")
                         (value_of project "prefix"))))).
Proof.
  intros Hproj Hroot.
  assert (Hrun : createESLintConfigForProject name tree
                 = (if root =? "" then Ok (tree, None)
                    else
                      dir <- Path.normalize root ;;
                      path <- Path.join dir ".eslintrc.json" ;;
                      Ok (tree,
                          Some (updateJsonInTree path
                                  (fun _ _ =>
                                     createProjectESLintConfig_dyn
                                       (tree_root_path tree) (JString root)
                                       (value_of project "projectType")
                                       (value_of project "prefix")))))).
  { unfold createESLintConfigForProject.
    rewrite (reads_project_run tree name project _ _ Hproj). simpl.
    now rewrite Hroot. }
  split.
  - intros ->. now rewrite Hrun.
  - intros dir path Hne Hdir Hpath. rewrite Hrun.
    apply String.eqb_neq in Hne. rewrite Hne, Hdir. simpl. now rewrite Hpath.
Qed.

(** X17: the rule that [createESLintConfigForProject] returns replaces the
    configuration file of the project: on a new file it creates it, on an
    existing file it overwrites it with the same text, whatever the file
    held; but an existing file that does not parse makes it fail with the
    parse error. *)
Theorem project_config_rule_run (path rootPath : string)
    (projectRoot projectType prefix config : Value)
    (host : Tree) (context : SchematicContext) :
  createProjectESLintConfig_dyn rootPath projectRoot projectType prefix
  = Ok config ->
  let rule :=
    updateJsonInTree path
      (fun _ _ =>
         createProjectESLintConfig_dyn rootPath projectRoot projectType prefix)
  in
  (tree_exists host path = false ->
   rule host context = tree_create host path (serializeJson config))
  /\
  (forall text current,
      tree_exists host path = true ->
      tree_read host path = Some text ->
      JSON_parse (stripJsonComments text) = inl current ->
      rule host context = tree_overwrite host path (serializeJson config))
  /\
  (forall text message,
      tree_exists host path = true ->
      tree_read host path = Some text ->
      JSON_parse (stripJsonComments text) = inr message ->
      rule host context
      = Throw (Error ("Cannot parse " ++ path ++ ": " ++ message))).
Proof.
  intros Hcfg rule. unfold rule, updateJsonInTree, readJsonInTree.
  split; [|split].
  - intros Hex. rewrite Hex. simpl. now rewrite Hcfg.
  - intros text current Hex Hread Hparse. rewrite Hex, Hread. simpl.
    rewrite Hparse. simpl. now rewrite Hcfg.
  - intros text message Hex Hread Hparse. rewrite Hex, Hread. simpl.
    now rewrite Hparse.
Qed.

(** X18: [removeTSLintJSONForProject] deletes one file and returns no rule:
    [/tslint.json] for a project whose root is empty or absent, and
    [tslint.json] in the normalized root for a project with another root;
    when the tree refuses the deletion, the rule fails with the exception
    of the tree. *)
Theorem removeTSLintJSONForProject_spec (tree : Tree) (name : string)
    (project : Props) :
  reads_project tree name project ->
  (truthy (value_of project "root") = false ->
   removeTSLintJSONForProject name tree
   = (tree' <- tree_delete tree "/tslint.json" ;; Ok (tree', None)))
  /\
  (forall root dir path : string,
      obj_get project "root" = Some (JString root) ->
      root <> "" ->
      Path.normalize root = Ok dir ->
      Path.join dir "tslint.json" = Ok path ->
      removeTSLintJSONForProject name tree
      = (tree' <- tree_delete tree path ;; Ok (tree', None))).
Proof.
  intros Hproj.
  assert (Hrun : removeTSLintJSONForProject name tree
                 = (dir <- normalize_dyn
                             (if truthy (value_of project "root")
                              then value_of project "root" else JString "/") ;;
                    path <- Path.join dir "tslint.json" ;;
                    tree' <- tree_delete tree path ;;
                    Ok (tree', None))).
  { unfold removeTSLintJSONForProject.
    now rewrite (reads_project_run tree name project _ _ Hproj). }
  split.
  - intros Hfalsy. rewrite Hrun, Hfalsy. reflexivity.
  - intros root dir path Hroot Hne Hdir Hpath. rewrite Hrun.
    unfold value_of. rewrite Hroot. simpl.
    apply String.eqb_neq in Hne. rewrite Hne. simpl.
    rewrite Hdir. simpl. now rewrite Hpath.
Qed.

End RulesProperties.

Section RootConfigFile.

Context {RT : Runtime} {SC : Schematics}.

(** X19: [createRootESLintConfigFile] reads [angular.json] in the workspace
    directory and returns the rule of [updateJsonInTree] for
    [.eslintrc.json] in that directory.  The configuration carries the
    prefix of the project named like the workspace; when the document has
    no [projects], no such project, or the project has no prefix, it is the
    configuration without a prefix. *)
Theorem createRootESLintConfigFile_spec (workspaceName dir angularPath path
    text : string) (wsprops : Props) (tree : Tree) :
  Path.normalize workspaceName = Ok dir ->
  Path.join dir "angular.json" = Ok angularPath ->
  Path.join dir ".eslintrc.json" = Ok path ->
  tree_exists tree angularPath = true ->
  tree_read tree angularPath = Some text ->
  JSON_parse (stripJsonComments text) = inl (JObject wsprops) ->
  let returns (prefix : option string) :=
    createRootESLintConfigFile workspaceName tree
    = Ok (tree,
          Some (updateJsonInTree path
                  (fun _ _ => Ok (createRootESLintConfig prefix)))) in
  (obj_get wsprops "projects" = None -> returns None)
  /\
  (forall projects,
      obj_get wsprops "projects" = Some (JObject projects) ->
      obj_get projects workspaceName = None ->
      returns None)
  /\
  (forall projects project,
      obj_get wsprops "projects" = Some (JObject projects) ->
      obj_get projects workspaceName = Some (JObject project) ->
      obj_get project "prefix" = None ->
      returns None)
  /\
  (forall projects project p,
      obj_get wsprops "projects" = Some (JObject projects) ->
      obj_get projects workspaceName = Some (JObject project) ->
      obj_get project "prefix" = Some (JString p) ->
      returns (Some p)).
Proof.
  intros Hdir Hangular Hpath Hex Hread Hparse returns.
  assert (Hrun : forall k : Value -> Outcome,
    (angularJSON <- readJsonInTree tree angularPath ;; k angularJSON)
    = k (JObject wsprops)).
  { intros k. unfold readJsonInTree.
    change (tree_exists tree (at_path angularPath)) with
      (tree_exists tree angularPath).
    rewrite Hex, Hread. simpl. now rewrite Hparse. }
  unfold returns, createRootESLintConfigFile.
  rewrite Hdir. simpl bind. rewrite Hangular. simpl bind.
  rewrite Hrun, Hpath. simpl.
  split; [|split; [|split]].
  - intros Hnone. rewrite Hnone. reflexivity.
  - intros projects Hp Hn. rewrite Hp. simpl. rewrite Hn. reflexivity.
  - intros projects project Hp Hn Hpre. rewrite Hp. simpl. rewrite Hn. simpl.
    rewrite Hpre. reflexivity.
  - intros projects project p Hp Hn Hpre. rewrite Hp. simpl. rewrite Hn.
    simpl. rewrite Hpre. reflexivity.
Qed.

End RootConfigFile.

(** ** The further properties on the sample trees *)


Lemma updateJsonInTree_failures_witness :
  @updateJsonInTree Reference.runtime Reference.tree "/package.json"
    SampleMore.failing Sample.angular_tree tt
  = Throw (Error "refused")
  /\ @updateJsonInTree Reference.runtime Reference.tree "/angular.json"
       Sample.set_version Sample.broken_tree tt
     = Throw (Error "Cannot parse /angular.json: Unexpected token in JSON")
  /\ @updateJsonInTree Reference.runtime Reference.tree "/.angular.json"
       SampleMore.failing Sample.angular_tree tt
     = Throw (Error "refused").
Proof.
  split; [|split].
  - exact (proj1 (@updateJsonInTree_failures Reference.runtime Reference.tree
                    "/package.json" SampleMore.failing Sample.angular_tree tt)
             (Error "refused") eq_refl eq_refl).
  - exact (proj1 (proj2 (@updateJsonInTree_failures Reference.runtime
                           Reference.tree "/angular.json" Sample.set_version
                           Sample.broken_tree tt))
             "{ projects: " "Unexpected token in JSON"
             eq_refl eq_refl eq_refl).
  - exact (proj2 (proj2 (@updateJsonInTree_failures Reference.runtime
                           Reference.tree "/.angular.json" SampleMore.failing
                           Sample.angular_tree tt))
             "{}" (JObject []) (Error "refused")
             eq_refl eq_refl eq_refl eq_refl).
Defined.

Lemma updateJsonInTree_then_update_witness :
  exists host' : Reference.Files,
    @updateJsonInTree Reference.runtime Reference.tree "/package.json"
      Sample.set_version [] tt = Ok host'
    /\ @readJsonInTree Reference.runtime Reference.tree host' "/package.json"
       = Ok SampleMore.version2
    /\ @updateJsonInTree Reference.runtime Reference.tree "/package.json"
         Sample.set_version host' tt
       = @tree_overwrite Reference.tree host' "/package.json"
           (@serializeJson Reference.runtime SampleMore.version2).
Proof.
  eexists.
  exact (@updateJsonInTree_then_update Reference.runtime Reference.tree
           "/package.json" Sample.set_version Sample.set_version
           [] _ tt SampleMore.version2 SampleMore.version2
           eq_refl eq_refl eq_refl eq_refl eq_refl eq_refl eq_refl).
Defined.

Lemma updateWorkspaceInTree_needs_workspace_witness :
  @updateWorkspaceInTree Reference.runtime Reference.tree
    (fun json _ _ => Ok json) Sample.source_tree tt
  = @tree_overwrite Reference.tree Sample.source_tree "/angular.json"
      (@serializeJson Reference.runtime (JObject []))
  /\ @updateWorkspaceInTree Reference.runtime Reference.tree
       (fun json _ _ => Ok json) [] tt
     = Throw (Error "Cannot find undefined").
Proof.
  split; [reflexivity|].
  exact (@updateWorkspaceInTree_needs_workspace Reference.runtime
           Reference.tree (fun json _ _ => Ok json) [] tt
           eq_refl eq_refl eq_refl eq_refl).
Defined.

Lemma addESLintTarget_idempotent_witness :
  exists ws' : Value,
    addESLintTarget "shop" lint Sample.workspace = Ok ws'
    /\ addESLintTarget "shop" lint ws' = Ok ws'.
Proof.
  exact (addESLintTarget_idempotent "shop" lint Sample.workspace
           Sample.projects (Sample.project "") Sample.architect
           eq_refl eq_refl eq_refl).
Defined.

Lemma addESLintTarget_both_witness :
  exists ws1 ws2 : Value,
    addESLintTarget "ui" eslint Sample.workspace = Ok ws1
    /\ addESLintTarget "ui" lint ws1 = Ok ws2
    /\ select ws2 (target_place "ui" eslint) = Ok (lint_target "libs/ui")
    /\ select ws2 (target_place "ui" lint) = Ok (lint_target "libs/ui").
Proof.
  exact (addESLintTarget_both "ui" Sample.workspace Sample.projects
           (Sample.project "libs/ui") Sample.architect
           eq_refl eq_refl eq_refl).
Defined.

Lemma addESLintTarget_any_root_witness :
  exists ws' : Value,
    addESLintTarget "lib" eslint
      (JObject [("projects",
                 JObject [("lib", JObject [("architect", JObject [])])])])
    = Ok ws'
    /\ select ws' (target_place "lib" eslint) = Ok (lint_target "undefined").
Proof.
  destruct (addESLintTarget_any_root "lib" eslint
              (JObject [("projects",
                         JObject [("lib", JObject [("architect", JObject [])])])])
              [("lib", JObject [("architect", JObject [])])]
              [("architect", JObject [])] []
              eq_refl eq_refl eq_refl)
    as [ws' [Hres [_ Hundef]]].
  exists ws'. split; [exact Hres | exact (Hundef eq_refl)].
Defined.


Lemma dependencies_plain :
  NoDup (keys SampleMore.dependencies)
  /\ Forall (fun k => is_array_index k = false) (keys SampleMore.dependencies).
Proof.
  split.
  - simpl. repeat constructor; simpl; intuition discriminate.
  - simpl. repeat constructor.
Qed.

Lemma sortObjectByKeys_idempotent_witness :
  sortObjectByKeys (sortObjectByKeys SampleMore.dependencies)
  = sortObjectByKeys SampleMore.dependencies.
Proof.
  exact (sortObjectByKeys_idempotent SampleMore.dependencies
           (proj1 dependencies_plain) (proj2 dependencies_plain)).
Defined.

Lemma sortObjectByKeys_order_independent_witness :
  sortObjectByKeys SampleMore.dependencies
  = sortObjectByKeys (rev SampleMore.dependencies).
Proof.
  exact (sortObjectByKeys_order_independent SampleMore.dependencies
           (rev SampleMore.dependencies)
           (Permutation_rev SampleMore.dependencies)
           (proj1 dependencies_plain) (proj2 dependencies_plain)).
Defined.

Lemma source_listing_of_project_tree :
  @listing_of Reference.tree SampleMore.project_tree "src" source_listing.
Proof.
  simpl. repeat split; repeat constructor.
Qed.

Lemma allFilesInDirInHost_shape_witness :
  exists direct below : list string,
    @allFilesInDirInHost Reference.tree 3 SampleMore.project_tree "src" false
    = Ok direct
    /\ @allFilesInDirInHost Reference.tree 3 SampleMore.project_tree "src" true
       = Ok (direct ++ below)%list
    /\ List.length (direct ++ below)%list = 4
    /\ forall x : string,
         In x (direct ++ below)%list -> exists rest : string, x = "src/" ++ rest.
Proof.
  exact (@allFilesInDirInHost_shape Reference.tree SampleMore.project_tree
           "src" source_listing 3 source_listing_of_project_tree (le_n 3)).
Defined.

Lemma reads_ui :
  @reads_project Reference.runtime Reference.tree SampleMore.project_tree
    "ui" (Sample.project "libs/ui").
Proof.
  exists Sample.commented, Sample.workspace, Sample.projects.
  repeat split.
Qed.

Lemma reads_shop :
  @reads_project Reference.runtime Reference.tree SampleMore.project_tree
    "shop" (Sample.project "").
Proof.
  exists Sample.commented, Sample.workspace, Sample.projects.
  repeat split.
Qed.

Lemma angular_json_only_witness :
  @getWorkspacePath Reference.tree SampleMore.workspace_only
  = at_path "/workspace.json"
  /\ @getAllSourceFilesForProject Reference.runtime Reference.tree 3
       SampleMore.workspace_only "shop"
     = Throw (Error "Cannot find angular.json")
  /\ @createESLintConfigForProject Reference.runtime Reference.tree
       ReferenceMore.tree_more "shop" SampleMore.workspace_only
     = Throw (Error "Cannot find angular.json")
  /\ @removeTSLintJSONForProject Reference.runtime Reference.tree
       ReferenceMore.tree_more "shop" SampleMore.workspace_only
     = Throw (Error "Cannot find angular.json").
Proof.
  split; [reflexivity|].
  exact (@angular_json_only Reference.runtime Reference.tree
           ReferenceMore.tree_more SampleMore.workspace_only "shop" 3 eq_refl).
Defined.

Lemma getAllSourceFilesForProject_spec_witness :
  @getAllSourceFilesForProject Reference.runtime Reference.tree 3
    SampleMore.project_tree "shop"
  = Ok ["src/main.ts"; "src/app/app.component.ts";
        "src/app/app.component.html"; "src/app/shared/util.ts"]
  /\ @getAllSourceFilesForProject Reference.runtime Reference.tree 3
       SampleMore.project_tree "ui"
     = @allFilesInDirInHost Reference.tree 3 SampleMore.project_tree
         "libs/ui" true.
Proof.
  split.
  - exact (proj2 (proj2 (@getAllSourceFilesForProject_spec Reference.runtime
                           Reference.tree SampleMore.project_tree "shop"
                           (Sample.project "") "" 3 reads_shop eq_refl))
             source_listing eq_refl source_listing_of_project_tree (le_n 3)).
  - assert (Hne : "libs/ui" <> "") by discriminate.
    exact (proj1 (proj2 (@getAllSourceFilesForProject_spec Reference.runtime
                           Reference.tree SampleMore.project_tree "ui"
                           (Sample.project "libs/ui") "libs/ui" 3
                           reads_ui eq_refl))
             "libs/ui" Hne eq_refl).
Defined.

Lemma createESLintConfigForProject_spec_witness :
  @createESLintConfigForProject Reference.runtime Reference.tree
    ReferenceMore.tree_more "shop" SampleMore.project_tree
  = Ok (SampleMore.project_tree, None)
  /\ @createESLintConfigForProject Reference.runtime Reference.tree
       ReferenceMore.tree_more "ui" SampleMore.project_tree
     = Ok (SampleMore.project_tree,
           Some (@updateJsonInTree Reference.runtime Reference.tree
                   "libs/ui/.eslintrc.json"
                   (fun _ _ =>
                      createProjectESLintConfig "/" "libs/ui" application
                        "app"))).
Proof.
  split.
  - exact (proj1 (@createESLintConfigForProject_spec Reference.runtime
                    Reference.tree ReferenceMore.tree_more
                    SampleMore.project_tree "shop" (Sample.project "") ""
                    reads_shop eq_refl) eq_refl).
  - assert (Hne : "libs/ui" <> "") by discriminate.
    exact (proj2 (@createESLintConfigForProject_spec Reference.runtime
                    Reference.tree ReferenceMore.tree_more
                    SampleMore.project_tree "ui" (Sample.project "libs/ui")
                    "libs/ui" reads_ui eq_refl)
             "libs/ui" "libs/ui/.eslintrc.json" Hne eq_refl eq_refl).
Defined.

Lemma project_config_rule_run_witness :
  exists config : Value,
    createProjectESLintConfig_dyn "/" (JString "libs/ui")
      (JString "application") (JString "app") = Ok config
    /\ @updateJsonInTree Reference.runtime Reference.tree
         "libs/ui/.eslintrc.json"
         (fun _ _ =>
            createProjectESLintConfig_dyn "/" (JString "libs/ui")
              (JString "application") (JString "app"))
         Sample.angular_tree tt
       = @tree_create Reference.tree Sample.angular_tree
           "libs/ui/.eslintrc.json" (@serializeJson Reference.runtime config)
    /\ @updateJsonInTree Reference.runtime Reference.tree "/.angular.json"
         (fun _ _ =>
            createProjectESLintConfig_dyn "/" (JString "libs/ui")
              (JString "application") (JString "app"))
         Sample.angular_tree tt
       = @tree_overwrite Reference.tree Sample.angular_tree "/.angular.json"
           (@serializeJson Reference.runtime config)
    /\ @updateJsonInTree Reference.runtime Reference.tree
         "libs/ui/.eslintrc.json"
         (fun _ _ =>
            createProjectESLintConfig_dyn "/" (JString "libs/ui")
              (JString "application") (JString "app"))
         SampleMore.project_tree tt
       = Throw (Error
           "Cannot parse libs/ui/.eslintrc.json: Unexpected token in JSON").
Proof.
  eexists. split; [reflexivity|].
  split; [|split].
  - exact (proj1 (@project_config_rule_run Reference.runtime Reference.tree
                    "libs/ui/.eslintrc.json" "/" (JString "libs/ui")
                    (JString "application") (JString "app") _
                    Sample.angular_tree tt eq_refl) eq_refl).
  - exact (proj1 (proj2 (@project_config_rule_run Reference.runtime
                           Reference.tree "/.angular.json" "/"
                           (JString "libs/ui") (JString "application")
                           (JString "app") _ Sample.angular_tree tt eq_refl))
             "{}" (JObject []) eq_refl eq_refl eq_refl).
  - exact (proj2 (proj2 (@project_config_rule_run Reference.runtime
                           Reference.tree "libs/ui/.eslintrc.json" "/"
                           (JString "libs/ui") (JString "application")
                           (JString "app") _ SampleMore.project_tree tt
                           eq_refl))
             "{ extends: " "Unexpected token in JSON"
             eq_refl eq_refl eq_refl).
Defined.

Lemma removeTSLintJSONForProject_spec_witness :
  @removeTSLintJSONForProject Reference.runtime Reference.tree
    ReferenceMore.tree_more "shop" SampleMore.project_tree
  = Ok (ReferenceMore.remove SampleMore.project_tree "/tslint.json", None)
  /\ @removeTSLintJSONForProject Reference.runtime Reference.tree
       ReferenceMore.tree_more "ui" SampleMore.project_tree
     = Ok (ReferenceMore.remove SampleMore.project_tree "/libs/ui/tslint.json",
           None).
Proof.
  split.
  - exact (proj1 (@removeTSLintJSONForProject_spec Reference.runtime
                    Reference.tree ReferenceMore.tree_more
                    SampleMore.project_tree "shop" (Sample.project "")
                    reads_shop) eq_refl).
  - assert (Hne : "libs/ui" <> "") by discriminate.
    exact (proj2 (@removeTSLintJSONForProject_spec Reference.runtime
                    Reference.tree ReferenceMore.tree_more
                    SampleMore.project_tree "ui" (Sample.project "libs/ui")
                    reads_ui)
             "libs/ui" "libs/ui" "libs/ui/tslint.json"
             eq_refl Hne eq_refl eq_refl).
Defined.

Lemma createRootESLintConfigFile_spec_witness :
  @createRootESLintConfigFile Reference.runtime Reference.tree "shop"
    SampleMore.shop_tree
  = Ok (SampleMore.shop_tree,
        Some (@updateJsonInTree Reference.runtime Reference.tree
                "shop/.eslintrc.json"
                (fun _ _ => Ok (createRootESLintConfig (Some "app")))))
  /\ @createRootESLintConfigFile Reference.runtime Reference.tree ""
       Sample.source_tree
     = Ok (Sample.source_tree,
           Some (@updateJsonInTree Reference.runtime Reference.tree
                   ".eslintrc.json"
                   (fun _ _ => Ok (createRootESLintConfig None)))).
Proof.
  split.
  - exact (proj2 (proj2 (proj2
             (@createRootESLintConfigFile_spec Reference.runtime
                Reference.tree "shop" "shop" "shop/angular.json"
                "shop/.eslintrc.json" (Sample.text_of Sample.workspace)
                [("version", JNumber "1");
                 ("projects", JObject Sample.projects);
                 ("defaultProject", JString "shop")]
                SampleMore.shop_tree
                eq_refl eq_refl eq_refl eq_refl eq_refl eq_refl)))
             Sample.projects (Sample.project "") "app"
             eq_refl eq_refl eq_refl).
  - exact (proj1
             (@createRootESLintConfigFile_spec Reference.runtime
                Reference.tree "" "" "angular.json" ".eslintrc.json" "{}" []
                Sample.source_tree
                eq_refl eq_refl eq_refl eq_refl eq_refl eq_refl)
             eq_refl).
Defined.

(** On the sample tree the rule returned for the project [ui] fails: the
    configuration file that is there does not parse. *)
Example project_rule_on_sample_tree :
  match @createESLintConfigForProject Reference.runtime Reference.tree
          ReferenceMore.tree_more "ui" SampleMore.project_tree with
  | Ok (tree, Some rule) =>
      rule tree tt
      = Throw (Error
          "Cannot parse libs/ui/.eslintrc.json: Unexpected token in JSON")
  | _ => False
  end.
Proof. reflexivity. Qed.

(** ** Array indices are canonical *)

Lemma pow10_pos (n : nat) : (0 < pow10 n)%N.
Proof. induction n; cbn [pow10]; lia. Qed.

Lemma pow10_mono (n m : nat) : n <= m -> (pow10 n <= pow10 m)%N.
Proof.
  induction 1 as [|m _ IH]; [lia|]. cbn [pow10]. pose proof (pow10_pos m). lia.
Qed.

Lemma digit_range (c : ascii) (d : N) : digit c = Some d -> (d <= 9)%N.
Proof.
  unfold digit.
  destruct ((48 <=? N_of_ascii c)%N && (N_of_ascii c <=? 57)%N) eqn:E;
    [|discriminate].
  apply andb_prop in E. destruct E as [E1 E2].
  apply N.leb_le in E1, E2. intros H. injection H as <-. lia.
Qed.

Lemma digit_inj (c c' : ascii) (d : N) :
  digit c = Some d -> digit c' = Some d -> c = c'.
Proof.
  unfold digit.
  destruct ((48 <=? N_of_ascii c)%N && (N_of_ascii c <=? 57)%N) eqn:E;
    [|discriminate].
  destruct ((48 <=? N_of_ascii c')%N && (N_of_ascii c' <=? 57)%N) eqn:E';
    [|discriminate].
  apply andb_prop in E, E'. destruct E as [E1 _], E' as [E1' _].
  apply N.leb_le in E1, E1'. intros H H'. injection H as H. injection H' as H'.
  assert (Hn : N_of_ascii c = N_of_ascii c') by lia.
  rewrite <- (ascii_N_embedding c), <- (ascii_N_embedding c'). now rewrite Hn.
Qed.

Lemma digit_zero (c : ascii) : digit c = Some 0%N -> c = "0"%char.
Proof.
  intros H. apply (digit_inj c "0" 0%N H). reflexivity.
Qed.

Lemma digits_value_acc (s : string) (acc : N) :
  digits_value acc s
  = match digits_value 0 s with
    | Some r => Some (acc * pow10 (String.length s) + r)%N
    | None => None
    end.
Proof.
  revert acc. induction s as [|c s IH]; intros acc;
    cbn [digits_value String.length pow10].
  - f_equal. lia.
  - destruct (digit c) as [d|]; [|reflexivity].
    rewrite (IH (acc * 10 + d)%N), (IH (0 * 10 + d)%N).
    destruct (digits_value 0 s) as [r|]; [|reflexivity].
    f_equal. lia.
Qed.

Lemma digits_value_cons (c : ascii) (s : string) (v : N) :
  digits_value 0 (String c s) = Some v ->
  exists d r : N,
    digit c = Some d /\ digits_value 0 s = Some r
    /\ v = (d * pow10 (String.length s) + r)%N.
Proof.
  cbn [digits_value]. destruct (digit c) as [d|]; [|discriminate].
  rewrite digits_value_acc.
  destruct (digits_value 0 s) as [r|]; [|discriminate].
  intros H. injection H as <-. exists d, r. repeat split; lia.
Qed.

Lemma digits_value_bound (s : string) (v : N) :
  digits_value 0 s = Some v -> (v < pow10 (String.length s))%N.
Proof.
  revert v. induction s as [|c s IH]; intros v H.
  - cbn in H. injection H as <-. cbn. lia.
  - destruct (digits_value_cons c s v H) as [d [r [Hd [Hr ->]]]].
    apply digit_range in Hd. specialize (IH r Hr).
    cbn [String.length pow10]. nia.
Qed.

Lemma digits_value_inj (s s' : string) (v : N) :
  String.length s = String.length s' ->
  digits_value 0 s = Some v -> digits_value 0 s' = Some v -> s = s'.
Proof.
  revert s' v. induction s as [|c s IH]; intros [|c' s'] v Hlen H H';
    try discriminate Hlen; [reflexivity|].
  injection Hlen as Hlen.
  destruct (digits_value_cons c s v H) as [d [r [Hd [Hr Hv]]]].
  destruct (digits_value_cons c' s' v H') as [d' [r' [Hd' [Hr' Hv']]]].
  pose proof (digits_value_bound s r Hr) as Hb.
  pose proof (digits_value_bound s' r' Hr') as Hb'.
  rewrite <- Hlen in Hv', Hb'.
  assert (Hdd : d = d') by nia. subst d'.
  assert (Hrr : r = r') by nia. subst r'.
  f_equal; [exact (digit_inj c c' d Hd Hd') | exact (IH s' r Hlen Hr Hr')].
Qed.

(** What [array_index] accepts: digits without a leading zero. *)
Lemma array_index_canonical (k : string) (n : N) :
  array_index k = Some n ->
  digits_value 0 k = Some n
  /\ exists c rest,
       k = String c rest
       /\ (rest = "" \/ (pow10 (String.length rest) <= n)%N).
Proof.
  unfold array_index. destruct k as [|c rest]; [discriminate|].
  destruct ((c =? "0")%char && negb (rest =? "")) eqn:E; [discriminate|].
  destruct (10 <? String.length (String c rest))%nat; [discriminate|].
  destruct (digits_value 0 (String c rest)) as [v|] eqn:Hv; [|discriminate].
  destruct (v <? 4294967295)%N; [|discriminate].
  intros H. injection H as <-. split; [reflexivity|].
  exists c, rest. split; [reflexivity|].
  destruct (rest =? "") eqn:Er; [left; now apply String.eqb_eq|right].
  rewrite andb_true_r in E. apply Ascii.eqb_neq in E.
  destruct (digits_value_cons c rest v Hv) as [d [r [Hd [_ ->]]]].
  assert (Hpos : d <> 0%N).
  { intros ->. apply E. now apply digit_zero. }
  nia.
Qed.

Lemma array_index_inj (a b : string) (n : N) :
  array_index a = Some n -> array_index b = Some n -> a = b.
Proof.
  intros Ha Hb.
  destruct (array_index_canonical a n Ha) as [Va [ca [ra [-> Ca]]]].
  destruct (array_index_canonical b n Hb) as [Vb [cb [rb [-> Cb]]]].
  pose proof (digits_value_bound _ _ Va) as Ba.
  pose proof (digits_value_bound _ _ Vb) as Bb.
  cbn [String.length pow10] in Ba, Bb.
  destruct (Nat.lt_trichotomy (String.length ra) (String.length rb))
    as [Hlt|[Heq|Hgt]].
  - exfalso. destruct Cb as [->|Cb]; [simpl in Hlt; lia|].
    assert (Hm := pow10_mono (S (String.length ra)) (String.length rb) Hlt).
    cbn [pow10] in Hm. lia.
  - apply (digits_value_inj _ _ n); [simpl; now rewrite Heq | exact Va | exact Vb].
  - exfalso. destruct Ca as [->|Ca]; [simpl in Hgt; lia|].
    assert (Hm := pow10_mono (S (String.length rb)) (String.length ra) Hgt).
    cbn [pow10] in Hm. lia.
Qed.

(** ** Objects in the order of their keys *)

Lemma idx_lt_values (a b : string) :
  idx_lt a b ->
  exists m n, array_index a = Some m /\ array_index b = Some n /\ (m < n)%N.
Proof.
  unfold idx_lt. destruct (array_index a) as [m|]; [|contradiction].
  destruct (array_index b) as [n|]; [|contradiction].
  intros H. now exists m, n.
Qed.

Lemma idx_lt_trans (a b c : string) : idx_lt a b -> idx_lt b c -> idx_lt a c.
Proof.
  unfold idx_lt. destruct (array_index a), (array_index b), (array_index c);
    try contradiction. lia.
Qed.

Lemma idx_lt_irrefl (a : string) : ~ idx_lt a a.
Proof.
  unfold idx_lt. destruct (array_index a); [lia | tauto].
Qed.

Lemma is_array_index_some (k : string) :
  is_array_index k = true -> exists n, array_index k = Some n.
Proof.
  unfold is_array_index. destruct (array_index k) as [n|]; [|discriminate].
  now exists n.
Qed.

Lemma strongly_sorted_before (R : string -> string -> Prop)
    (l1 l2 : list string) (x : string) :
  StronglySorted R (l1 ++ x :: l2)%list -> Forall (fun y => R y x) l1.
Proof.
  induction l1 as [|y l1 IH]; simpl; intros S; [constructor|].
  inversion S as [|? ? S' F]; subst. constructor; [|now apply IH].
  rewrite Forall_forall in F. apply F. apply in_or_app. right. now left.
Qed.

Lemma idx_sorted_nodup (l : list string) :
  StronglySorted idx_lt l -> NoDup l.
Proof.
  induction 1 as [|x l S IH F]; constructor; [|exact IH].
  intros Hin. rewrite Forall_forall in F.
  exact (idx_lt_irrefl x (F x Hin)).
Qed.

Lemma insert_index_end (ra : Props) (n : N) (k : string) (v : Value) :
  Forall (fun k' => exists m, array_index k' = Some m /\ (m < n)%N) (keys ra) ->
  obj_insert_index ra n k v = (ra ++ [(k, v)])%list.
Proof.
  induction ra as [|[k' v'] ra IH]; simpl; intros F; [reflexivity|].
  inversion F as [|? ? [m [Hm Hlt]] F']; subst. simpl in Hm. rewrite Hm.
  apply N.ltb_lt in Hlt. rewrite Hlt. now rewrite IH.
Qed.

Lemma insert_index_app (ra rb : Props) (n : N) (k : string) (v : Value) :
  Forall (fun k => is_array_index k = false) (keys rb) ->
  obj_insert_index (ra ++ rb)%list n k v = (obj_insert_index ra n k v ++ rb)%list.
Proof.
  intros Frb. induction ra as [|[k' v'] ra IH]; simpl.
  - destruct rb as [|[k' v'] rb]; [reflexivity|].
    inversion Frb as [|? ? Hk' _]; subst. simpl in Hk'.
    unfold is_array_index in Hk'. simpl.
    destruct (array_index k'); [discriminate | reflexivity].
  - destruct (array_index k') as [m|]; [|reflexivity].
    destruct (m <? n)%N; [|reflexivity]. simpl. now rewrite IH.
Qed.

Lemma insert_index_sorted (ra : Props) (n : N) (k : string) (v : Value) :
  array_index k = Some n ->
  StronglySorted idx_lt (keys ra) ->
  Forall (fun k => is_array_index k = true) (keys ra) ->
  ~ In k (keys ra) ->
  StronglySorted idx_lt (keys (obj_insert_index ra n k v))
  /\ Forall (fun k => is_array_index k = true)
       (keys (obj_insert_index ra n k v)).
Proof.
  intros Hk. assert (Hki : is_array_index k = true)
    by (unfold is_array_index; now rewrite Hk).
  induction ra as [|[k' v'] ra IH]; simpl; intros S F Hnin.
  - split; repeat constructor. exact Hki.
  - inversion S as [|? ? S' Fk']; subst. inversion F as [|? ? Hk'i F']; subst.
    simpl in Hk'i. destruct (is_array_index_some _ Hk'i) as [m Hm].
    rewrite Hm. destruct (m <? n)%N eqn:E; simpl.
    + apply N.ltb_lt in E.
      destruct (IH S' F' (fun H => Hnin (or_intror H))) as [S2 F2].
      split; [|constructor; assumption].
      constructor; [exact S2|].
      eapply Permutation_Forall;
        [symmetry; apply keys_insert_index|].
      constructor; [|exact Fk'].
      unfold idx_lt. now rewrite Hm, Hk.
    + apply N.ltb_ge in E.
      assert (Hne : m <> n).
      { intros ->. apply Hnin. left. exact (array_index_inj _ _ _ Hm Hk). }
      assert (Hlt : idx_lt k k')
        by (unfold idx_lt; rewrite Hk, Hm; lia).
      split; [|constructor; [exact Hki | constructor; assumption]].
      constructor; [exact S|]. constructor; [exact Hlt|].
      eapply Forall_impl; [|exact Fk'].
      intros x Hx. exact (idx_lt_trans _ _ _ Hlt Hx).
Qed.

Lemma literal_from_indices (ra acc : Props) :
  StronglySorted idx_lt (keys (acc ++ ra)%list) ->
  Forall (fun k => is_array_index k = true) (keys ra) ->
  fold_left (fun o kv => obj_set o (fst kv) (snd kv)) ra acc = (acc ++ ra)%list.
Proof.
  revert acc. induction ra as [|[k v] ra IH]; simpl; intros acc S F.
  - now rewrite app_nil_r.
  - inversion F as [|? ? Hki F']; subst.
    destruct (is_array_index_some _ Hki) as [n Hn].
    assert (Hbefore : Forall (fun y => idx_lt y k) (keys acc)).
    { unfold keys in *. rewrite map_app in S. simpl in S.
      exact (strongly_sorted_before _ _ _ _ S). }
    assert (Hnin : ~ In k (keys acc)).
    { intros Hin. rewrite Forall_forall in Hbefore.
      exact (idx_lt_irrefl k (Hbefore k Hin)). }
    assert (Hset : obj_set acc k v = (acc ++ [(k, v)])%list).
    { unfold obj_set, has_key. apply obj_get_none in Hnin. rewrite Hnin, Hn.
      apply insert_index_end. eapply Forall_impl; [|exact Hbefore].
      intros y Hy. destruct (idx_lt_values _ _ Hy) as [m [n' [Hm [Hn' Hlt]]]].
      exists m. split; [exact Hm|]. congruence. }
    rewrite Hset, IH; [now rewrite <- app_assoc | | exact F'].
    now rewrite <- app_assoc.
Qed.

Lemma canonical_nodup (ra rb : Props) :
  canonical ra rb -> NoDup (keys (ra ++ rb)%list).
Proof.
  intros [S [Fa [Fb Nb]]]. unfold keys. rewrite map_app.
  apply NoDup_app; [now apply idx_sorted_nodup | exact Nb |].
  intros k Ha Hb. rewrite Forall_forall in Fa, Fb.
  specialize (Fa k Ha). specialize (Fb k Hb). congruence.
Qed.

(** Copying an object in the order of its keys gives the same object. *)
Lemma spread_canonical (ra rb : Props) :
  canonical ra rb -> spread (ra ++ rb)%list = (ra ++ rb)%list.
Proof.
  intros C. pose proof (canonical_nodup ra rb C) as Hnd.
  destruct C as [S [Fa [Fb Nb]]].
  unfold spread, literal. rewrite fold_left_app.
  rewrite (literal_from_indices ra []); [|exact S | exact Fa]. simpl.
  rewrite literal_from_plain; [reflexivity | | exact Fb].
  unfold keys in *. now rewrite map_app in Hnd.
Qed.

Lemma filter_perm (f : string -> bool) (l1 l2 : list string) :
  Permutation l1 l2 -> Permutation (filter f l1) (filter f l2).
Proof.
  induction 1 as [|x l1 l2 _ IH|x y l|l1 l2 l3 _ IH1 _ IH2]; simpl.
  - constructor.
  - destruct (f x); [now constructor | exact IH].
  - destruct (f x), (f y); try reflexivity. apply perm_swap.
  - now transitivity (filter f l2).
Qed.

Lemma filter_strongly_sorted (f : string -> bool) (l : list string) :
  StronglySorted lex_le l -> StronglySorted lex_le (filter f l).
Proof.
  induction 1 as [|x l S IH F]; simpl; [constructor|].
  destruct (f x); [|exact IH]. constructor; [exact IH|].
  rewrite Forall_forall in *. intros y Hy. apply F.
  apply filter_In in Hy. tauto.
Qed.

(** The loop of [sortObjectByKeys] on an object in the order of its keys:
    array indices go to their numeric place, other keys to the end. *)
Lemma sort_fold_canonical (obj : Props) (ks : list string) :
  forall ra rb : Props,
    canonical ra rb ->
    NoDup ks ->
    (forall k, In k ks -> ~ In k (keys (ra ++ rb)%list)) ->
    exists ra' rb' : Props,
      fold_left
        (fun result key => obj_set (spread result) key (value_of obj key))
        ks (ra ++ rb)%list
      = (ra' ++ rb')%list
      /\ canonical ra' rb'
      /\ Permutation (keys ra') (keys ra ++ filter is_array_index ks)%list
      /\ keys rb'
         = (keys rb ++ filter (fun k => negb (is_array_index k)) ks)%list.
Proof.
  induction ks as [|k ks IH]; intros ra rb C Hnd Hfresh.
  - exists ra, rb. simpl. rewrite !app_nil_r.
    split; [reflexivity|]. split; [exact C|]. split; reflexivity.
  - inversion Hnd as [|? ? Hk Hnd']; subst.
    assert (Hnin : ~ In k (keys (ra ++ rb)%list)) by (apply Hfresh; now left).
    assert (Hget : obj_get (ra ++ rb)%list k = None) by now apply obj_get_none.
    cbn [fold_left]. rewrite (spread_canonical ra rb C).
    destruct C as [S [Fa [Fb Nb]]].
    unfold obj_set, has_key. rewrite Hget.
    unfold keys in Hnin. rewrite map_app in Hnin.
    destruct (array_index k) as [n|] eqn:En.
    + rewrite (insert_index_app ra rb n k _ Fb).
      destruct (insert_index_sorted ra n k (value_of obj k) En S Fa)
        as [S' Fa']; [intros H; apply Hnin, in_or_app; now left|].
      destruct (IH (obj_insert_index ra n k (value_of obj k)) rb)
        as [ra' [rb' [Hfold [C' [Pa Eb]]]]].
      * now repeat split.
      * exact Hnd'.
      * intros x Hx Hin. unfold keys in Hin. rewrite map_app in Hin.
        apply in_app_or in Hin. destruct Hin as [Hin|Hin].
        -- apply (Permutation_in _ (keys_insert_index ra n k _)) in Hin.
           destruct Hin as [<-|Hin]; [contradiction|].
           apply (Hfresh x (or_intror Hx)). unfold keys. rewrite map_app.
           apply in_or_app. now left.
        -- apply (Hfresh x (or_intror Hx)). unfold keys. rewrite map_app.
           apply in_or_app. now right.
      * exists ra', rb'. split; [exact Hfold|]. split; [exact C'|].
        assert (Hki : is_array_index k = true)
          by (unfold is_array_index; now rewrite En).
        cbn [filter]. rewrite Hki. cbn [negb].
        split; [|exact Eb].
        rewrite Pa, (keys_insert_index ra n k _).
        apply Permutation_middle.
    + destruct (IH ra (rb ++ [(k, value_of obj k)])%list)
        as [ra' [rb' [Hfold [C' [Pa Eb]]]]].
      * repeat split; try assumption.
        -- unfold keys. rewrite map_app. apply Forall_app. split; [exact Fb|].
           repeat constructor. simpl. unfold is_array_index. now rewrite En.
        -- unfold keys. rewrite map_app. simpl.
           apply NoDup_app; [exact Nb | repeat constructor; simpl; tauto |].
           intros x Hx [<-|[]]. apply Hnin, in_or_app. now right.
      * exact Hnd'.
      * intros x Hx Hin. unfold keys in Hin. rewrite !map_app in Hin.
        simpl in Hin. rewrite app_assoc in Hin. apply in_app_or in Hin.
        destruct Hin as [Hin|[<-|[]]]; [|contradiction].
        apply (Hfresh x (or_intror Hx)). unfold keys. now rewrite map_app.
      * exists ra', rb'. rewrite app_assoc in Hfold.
        split; [exact Hfold|]. split; [exact C'|].
        assert (Hki : is_array_index k = false)
          by (unfold is_array_index; now rewrite En).
        cbn [filter]. rewrite Hki. cbn [negb].
        split; [exact Pa|].
        rewrite Eb. unfold keys. rewrite map_app, <- app_assoc. reflexivity.
Qed.

(** X20: the keys of [sortObjectByKeys obj], for every object: first the
    array indices of [obj] in ascending numeric order, then its other keys
    in lexicographic order. *)
Theorem sortObjectByKeys_key_order (obj : Props) :
  NoDup (keys obj) ->
  exists indices others : list string,
    keys (sortObjectByKeys obj) = (indices ++ others)%list
    /\ Permutation indices (filter is_array_index (keys obj))
    /\ StronglySorted idx_lt indices
    /\ others = sort (filter (fun k => negb (is_array_index k)) (keys obj)).
Proof.
  intros Hnd.
  assert (Hperm : Permutation (sort (keys obj)) (keys obj)) by apply sort_perm.
  destruct (sort_fold_canonical obj (sort (keys obj)) [] [])
    as [ra [rb [Hfold [[S [Fa [Fb Nb]]] [Pa Eb]]]]].
  - repeat split; constructor.
  - eapply Permutation_NoDup; [|exact Hnd]. now symmetry.
  - intros k _ [].
  - exists (keys ra), (keys rb). simpl in Hfold, Pa, Eb.
    split; [|split; [|split]].
    + unfold sortObjectByKeys.
      change (keys (fold_left
                      (fun result key =>
                         obj_set (spread result) key (value_of obj key))
                      (sort (keys obj)) []) = (keys ra ++ keys rb)%list).
      rewrite Hfold. unfold keys. now rewrite map_app.
    + rewrite Pa. now apply filter_perm.
    + exact S.
    + rewrite Eb. symmetry. apply sorted_perm_eq.
      * apply sort_sorted.
      * apply StronglySorted_Sorted, filter_strongly_sorted,
          lex_sorted_strongly, sort_sorted.
      * rewrite sort_perm. apply filter_perm. now symmetry.
Qed.

Lemma sortObjectByKeys_key_order_witness :
  exists indices others : list string,
    keys (sortObjectByKeys [("9", JNull); ("10", JNull); ("b", JNull);
                            ("a", JNull); ("01", JNull)])
    = (indices ++ others)%list
    /\ Permutation indices ["9"; "10"]
    /\ StronglySorted idx_lt indices
    /\ others = ["01"; "a"; "b"].
Proof.
  assert (Hnd : NoDup (keys [("9", JNull); ("10", JNull); ("b", JNull);
                             ("a", JNull); ("01", JNull)])).
  { simpl. repeat constructor; simpl; intuition discriminate. }
  exact (sortObjectByKeys_key_order _ Hnd).
Defined.
